(** * The LZFSE native bridge of hadoop-common

    A shallow embedding of the two JNI translation units

      - [LzfseCompressor.c]   ([initIDs], [compressBytesDirect], [getLibraryName])
      - [LzfseDecompressor.c] ([initIDs], [decompressBytesDirect])

    and the properties of the bridge that their specification states.

    The C code talks to three things it does not own: the JVM (through the
    [JNIEnv] function table), the dynamic linker ([dlopen], [dlsym],
    [dlerror], [dladdr]) and the code of the codec library it reaches
    through a function pointer.  All three are interfaces here: [JNIEnv] is
    a record of functions passed to every entry point as in C, the linker
    and the foreign code are the [Platform] class.  The C file-scope
    [static] variables are the [statics] record of the [process] state. *)

From Stdlib Require Import ZArith Lia List String Ascii Bool.
From Stdlib Require Import Strings.Byte.
From coqutil Require Import Word.Interface Word.Properties Word.Naive.
Import ListNotations.

Open Scope string_scope.
Open Scope Z_scope.
Open Scope list_scope.

(** ** Machine types (LP64: [size_t] and pointers are 64 bits wide, the JNI
       types [jint] and [jsize] are 32-bit signed integers). *)

Definition jint : Type := @word.rep 32 Naive.word32.
Definition jsize : Type := jint.
Definition size_t : Type := @word.rep 64 Naive.word64.
Definition pointer : Type := @word.rep 64 Naive.word64.

Definition jobject : Type := pointer.
Definition jclass : Type := jobject.
Definition jfieldID : Type := pointer.
Definition jstring : Type := string.

Definition NULL : pointer := word.of_Z 0.

(** [!p] on a pointer. *)
Definition is_null (p : pointer) : bool := word.eqb p NULL.

(** [(size_t) x] for a [jint]: the value is sign-extended to 64 bits. *)
Definition size_t_of_jint (x : jint) : size_t := word.of_Z (word.signed x).

(** [(jsize) x] for a [size_t]: the low 32 bits are kept. *)
Definition jsize_of_size_t (x : size_t) : jsize := word.of_Z (word.unsigned x).

(** [x == 0] at either width. *)
Definition jsize_is_zero (x : jsize) : bool := word.eqb x (word.of_Z 0).
Definition size_is_zero (x : size_t) : bool := word.eqb x (word.of_Z 0).

(** ** Memory: what the direct buffers point into. *)

Definition memory : Type := Z -> byte.

Definition read (m : memory) (p : pointer) (n : nat) : list byte :=
  List.map (fun i => m (word.unsigned p + Z.of_nat i)) (List.seq 0 n).

Definition write (m : memory) (p : pointer) (bs : list byte) : memory :=
  fun a =>
    let off := a - word.unsigned p in
    if (0 <=? off) && (off <? Z.of_nat (List.length bs))
    then List.nth (Z.to_nat off) bs x00
    else m a.

(** The signature shared by [lzfse_encode_buffer] and [lzfse_decode_buffer]:
    [size_t f(uint8_t *dst, size_t dst_size, const uint8_t *src,
              size_t src_size, void *scratch)].  Foreign code reads and
    writes memory and returns a [size_t]. *)
Definition lzfse_fn : Type :=
  memory -> pointer -> size_t -> pointer -> size_t -> pointer -> size_t * memory.

(** ** Java exceptions *)

Record throwable : Type := mkThrowable {
  exception_name : string;
  message : string
}.

(** ** The JNI function table, as far as the bridge uses it. *)

Record JNIEnv : Type := mkJNIEnv {
  GetFieldID : jclass -> string -> string -> jfieldID;
  GetObjectField : jobject -> jfieldID -> jobject;
  GetDirectBufferAddress : jobject -> pointer;
  GetIntField : jobject -> jfieldID -> jint
}.

(** A Java string made from a C string is the string itself. *)
Definition NewStringUTF (env : JNIEnv) (utf : string) : jstring := utf.

(** ** The platform: build configuration, dynamic linker, foreign code.

    [HADOOP_LZFSE_LIBRARY] and the [RTLD_] flags are macros of headers that
    are not part of the two translation units; so is the exception that
    [LOAD_DYNAMIC_SYMBOL] raises for a missing symbol.  [ld_open] and
    [ld_sym] answer [NULL] on failure, [ld_diag] is the text [dlerror]
    then reports, [ld_addr] is [dladdr]'s [dli_fname] ([None] when [dladdr]
    returns 0), [code_at] is the code a function pointer designates. *)

Class Platform : Type := {
  HADOOP_LZFSE_LIBRARY : string;
  RTLD_LAZY : Z;
  RTLD_GLOBAL : Z;
  SymbolResolutionError : string -> throwable;
  ld_open : string -> Z -> pointer;
  ld_sym : pointer -> string -> pointer;
  ld_diag : string -> string;
  ld_addr : pointer -> option string;
  code_at : pointer -> lzfse_fn
}.

(** ** Process state *)

(** The file-scope [static] variables of the two translation units. *)
Record statics : Type := mkStatics {
  LzfseCompressor_uncompressedBuffer : jfieldID;
  LzfseCompressor_compressedBuffer : jfieldID;
  LzfseCompressor_internalBufferSize : jfieldID;
  dlsym_lzfse_encode_buffer : pointer;
  LzfseDecompressor_compressedBuffer : jfieldID;
  LzfseDecompressor_decompressedBuffer : jfieldID;
  LzfseDecompressor_internalBufferSize : jfieldID;
  dlsym_lzfse_decode_buffer : pointer
}.

(** What the process did to the outside world, oldest first. *)
Inductive event : Type :=
| EvDlopen (file : string) (flags : Z) (handle : pointer)
| EvDlsym (handle : pointer) (symbol : string) (address : pointer)
| EvCall (fn dst : pointer) (dst_size : size_t) (src : pointer)
         (src_size : size_t) (scratch : pointer) (returned : size_t).

Record process : Type := mkProcess {
  globals : statics;
  dl_err : option string;
  heap : memory;
  trace : list event
}.

(** C zero-initialises statics. *)
Definition statics_at_start : statics :=
  mkStatics NULL NULL NULL NULL NULL NULL NULL NULL.

Definition process_at_start : process :=
  mkProcess statics_at_start None (fun _ => x00) [].

(** ** Native method bodies: state passing, plus the exception left pending
       for the Java caller. *)

Record result (A : Type) : Type := mkResult {
  value : A;
  thrown : option throwable;
  final : process
}.
Arguments mkResult {A} _ _ _.
Arguments value {A} _.
Arguments thrown {A} _.
Arguments final {A} _.

Definition JNI (A : Type) : Type := process -> result A.

Definition ret {A : Type} (a : A) : JNI A := fun w => mkResult a None w.

Definition bind {A B : Type} (m : JNI A) (k : A -> JNI B) : JNI B :=
  fun w =>
    let r1 := m w in
    let r2 := k (value r1) (final r1) in
    mkResult (value r2)
             (match thrown r2 with Some e => Some e | None => thrown r1 end)
             (final r2).

Declare Scope jni_scope.
Delimit Scope jni_scope with jni.
Notation "x <- m ;; k" := (bind m (fun x => k))
  (at level 61, m at next level, right associativity) : jni_scope.
Notation "m ;;; k" := (bind m (fun _ => k))
  (at level 61, right associativity) : jni_scope.
Open Scope jni_scope.

Definition load_statics : JNI statics := fun w => mkResult (globals w) None w.

Definition assign (upd : statics -> statics) : JNI unit :=
  fun w => mkResult tt None
    (mkProcess (upd (globals w)) (dl_err w) (heap w) (trace w)).

Definition emit (e : event) : JNI unit :=
  fun w => mkResult tt None
    (mkProcess (globals w) (dl_err w) (heap w) (trace w ++ [e])).

Definition set_dl_err (d : option string) : JNI unit :=
  fun w => mkResult tt None (mkProcess (globals w) d (heap w) (trace w)).

(** Assignments to the individual statics. *)
Definition set_LzfseCompressor_uncompressedBuffer (v : jfieldID) (s : statics) :=
  mkStatics v (LzfseCompressor_compressedBuffer s)
    (LzfseCompressor_internalBufferSize s) (dlsym_lzfse_encode_buffer s)
    (LzfseDecompressor_compressedBuffer s) (LzfseDecompressor_decompressedBuffer s)
    (LzfseDecompressor_internalBufferSize s) (dlsym_lzfse_decode_buffer s).
Definition set_LzfseCompressor_compressedBuffer (v : jfieldID) (s : statics) :=
  mkStatics (LzfseCompressor_uncompressedBuffer s) v
    (LzfseCompressor_internalBufferSize s) (dlsym_lzfse_encode_buffer s)
    (LzfseDecompressor_compressedBuffer s) (LzfseDecompressor_decompressedBuffer s)
    (LzfseDecompressor_internalBufferSize s) (dlsym_lzfse_decode_buffer s).
Definition set_LzfseCompressor_internalBufferSize (v : jfieldID) (s : statics) :=
  mkStatics (LzfseCompressor_uncompressedBuffer s) (LzfseCompressor_compressedBuffer s)
    v (dlsym_lzfse_encode_buffer s)
    (LzfseDecompressor_compressedBuffer s) (LzfseDecompressor_decompressedBuffer s)
    (LzfseDecompressor_internalBufferSize s) (dlsym_lzfse_decode_buffer s).
Definition set_dlsym_lzfse_encode_buffer (v : pointer) (s : statics) :=
  mkStatics (LzfseCompressor_uncompressedBuffer s) (LzfseCompressor_compressedBuffer s)
    (LzfseCompressor_internalBufferSize s) v
    (LzfseDecompressor_compressedBuffer s) (LzfseDecompressor_decompressedBuffer s)
    (LzfseDecompressor_internalBufferSize s) (dlsym_lzfse_decode_buffer s).
Definition set_LzfseDecompressor_compressedBuffer (v : jfieldID) (s : statics) :=
  mkStatics (LzfseCompressor_uncompressedBuffer s) (LzfseCompressor_compressedBuffer s)
    (LzfseCompressor_internalBufferSize s) (dlsym_lzfse_encode_buffer s)
    v (LzfseDecompressor_decompressedBuffer s)
    (LzfseDecompressor_internalBufferSize s) (dlsym_lzfse_decode_buffer s).
Definition set_LzfseDecompressor_decompressedBuffer (v : jfieldID) (s : statics) :=
  mkStatics (LzfseCompressor_uncompressedBuffer s) (LzfseCompressor_compressedBuffer s)
    (LzfseCompressor_internalBufferSize s) (dlsym_lzfse_encode_buffer s)
    (LzfseDecompressor_compressedBuffer s) v
    (LzfseDecompressor_internalBufferSize s) (dlsym_lzfse_decode_buffer s).
Definition set_LzfseDecompressor_internalBufferSize (v : jfieldID) (s : statics) :=
  mkStatics (LzfseCompressor_uncompressedBuffer s) (LzfseCompressor_compressedBuffer s)
    (LzfseCompressor_internalBufferSize s) (dlsym_lzfse_encode_buffer s)
    (LzfseDecompressor_compressedBuffer s) (LzfseDecompressor_decompressedBuffer s)
    v (dlsym_lzfse_decode_buffer s).
Definition set_dlsym_lzfse_decode_buffer (v : pointer) (s : statics) :=
  mkStatics (LzfseCompressor_uncompressedBuffer s) (LzfseCompressor_compressedBuffer s)
    (LzfseCompressor_internalBufferSize s) (dlsym_lzfse_encode_buffer s)
    (LzfseDecompressor_compressedBuffer s) (LzfseDecompressor_decompressedBuffer s)
    (LzfseDecompressor_internalBufferSize s) v.

Section Bridge.
Context {P : Platform}.

(** ** The C library and the dynamic linker *)

Definition dlopen (file : string) (flags : Z) : JNI pointer :=
  let handle := ld_open file flags in
  emit (EvDlopen file flags handle) ;;;
  (if is_null handle then set_dl_err (Some (ld_diag file)) else ret tt) ;;;
  ret handle.

Definition dlsym (handle : pointer) (symbol : string) : JNI pointer :=
  let address := ld_sym handle symbol in
  emit (EvDlsym handle symbol address) ;;;
  (if is_null address then set_dl_err (Some (ld_diag symbol)) else ret tt) ;;;
  ret address.

(** [dlerror()] hands out the diagnostic of the last failure and clears it. *)
Definition dlerror : JNI (option string) :=
  fun w => mkResult (dl_err w) None
    (mkProcess (globals w) None (heap w) (trace w)).

(** [dladdr(addr, &dl_info)]: [Some dli_fname] when it returns non-zero. *)
Definition dladdr (addr : pointer) : JNI (option string) := ret (ld_addr addr).

(** How [printf]'s [%s] renders a [char *]. *)
Definition percent_s (s : option string) : string :=
  match s with Some text => text | None => "(null)" end.

(** [snprintf(buf, size, ...)]: at most [size - 1] characters of the
    formatted text are stored. *)
Definition snprintf (size : nat) (formatted : string) : string :=
  String.substring 0 (size - 1) formatted.

(** A call through a pointer to an LZFSE buffer function. *)
Definition call_lzfse (fn dst : pointer) (dst_size : size_t) (src : pointer)
    (src_size : size_t) (scratch : pointer) : JNI size_t :=
  fun w =>
    let out := code_at fn (heap w) dst dst_size src src_size scratch in
    mkResult (fst out) None
      (mkProcess (globals w) (dl_err w) (snd out)
         (trace w ++ [EvCall fn dst dst_size src src_size scratch (fst out)])).

(** ** Macros of [org_apache_hadoop.h] *)

(** Modelled from the spec: the macro [THROW(env, exception_name, message)]
    is declared in [org_apache_hadoop.h], which is not among the sources.
    The spec has the operations raise a typed failure to the caller; the
    macro leaves a Java exception of the named class pending and the C code
    carries on (both uses in [initIDs] are followed by an explicit
    [return]). *)
Definition THROW (env : JNIEnv) (exception_name message : string) : JNI unit :=
  fun w => mkResult tt (Some (mkThrowable exception_name message)) w.

(** Modelled from the spec: the macro
    [LOAD_DYNAMIC_SYMBOL(func_ptr, env, handle, symbol)] is declared in
    [org_apache_hadoop.h], which is not among the sources.  Per the spec's
    Library Loader it resolves the named entry point into [func_ptr]; if the
    symbol is missing the enclosing function fails with
    SymbolResolutionError and returns.  [rest] is what follows the macro in
    the enclosing function. *)
Definition LOAD_DYNAMIC_SYMBOL (func_ptr : pointer -> statics -> statics)
    (env : JNIEnv) (handle : pointer) (symbol : string)
    (rest : JNI unit) : JNI unit :=
  address <- dlsym handle symbol ;;
  assign (func_ptr address) ;;;
  if is_null address
  then fun w => mkResult tt (Some (SymbolResolutionError symbol)) w
  else rest.

(** ** LzfseCompressor.c *)

Definition Java_org_apache_hadoop_io_compress_lzfse_LzfseCompressor_initIDs
    (env : JNIEnv) (clazz : jclass) : JNI unit :=
  (* Load liblzfse.so *)
  liblzfse <- dlopen HADOOP_LZFSE_LIBRARY (Z.lor RTLD_LAZY RTLD_GLOBAL) ;;
  if is_null liblzfse then
    diagnostic <- dlerror ;;
    let msg := snprintf 1000
      (String.append (String.append "Cannot load " HADOOP_LZFSE_LIBRARY)
         (String.append " (" (String.append (percent_s diagnostic) ")!"))) in
    THROW env "java/lang/UnsatisfiedLinkError" msg
  else
    (* Locate the required symbols *)
    dlerror ;;;
    LOAD_DYNAMIC_SYMBOL set_dlsym_lzfse_encode_buffer env liblzfse
      "lzfse_encode_buffer"
      (assign (set_LzfseCompressor_uncompressedBuffer
                 (GetFieldID env clazz "uncompressedBuffer" "Ljava/nio/Buffer;")) ;;;
       assign (set_LzfseCompressor_compressedBuffer
                 (GetFieldID env clazz "compressedBuffer" "Ljava/nio/Buffer;")) ;;;
       assign (set_LzfseCompressor_internalBufferSize
                 (GetFieldID env clazz "internalBufferSize" "I"))).

Definition Java_org_apache_hadoop_io_compress_lzfse_LzfseCompressor_compressBytesDirect
    (env : JNIEnv) (thisj : jobject) (size : jint) : JNI jsize :=
  g <- load_statics ;;
  let uncompressed_buffer :=
    GetObjectField env thisj (LzfseCompressor_uncompressedBuffer g) in
  let src_buffer := GetDirectBufferAddress env uncompressed_buffer in
  let src_size := size_t_of_jint size in
  let compressed_buffer :=
    GetObjectField env thisj (LzfseCompressor_compressedBuffer g) in
  let dst_buffer := GetDirectBufferAddress env compressed_buffer in
  let dst_size :=
    size_t_of_jint (GetIntField env thisj (LzfseCompressor_internalBufferSize g)) in
  returned <- call_lzfse (dlsym_lzfse_encode_buffer g)
                dst_buffer dst_size src_buffer src_size NULL ;;
  let encoded := jsize_of_size_t returned in
  (if jsize_is_zero encoded && negb (size_is_zero src_size)
   then THROW env "java/lang/InternalError" "lzfse_encode_buffer failed"
   else ret tt) ;;;
  ret encoded.

Definition Java_org_apache_hadoop_io_compress_lzfse_LzfseCompressor_getLibraryName
    (env : JNIEnv) (clazz : jclass) : JNI jstring :=
  g <- load_statics ;;
  if negb (is_null (dlsym_lzfse_encode_buffer g)) then
    dl_info <- dladdr (dlsym_lzfse_encode_buffer g) ;;
    match dl_info with
    | Some dli_fname => ret (NewStringUTF env dli_fname)
    | None => ret (NewStringUTF env HADOOP_LZFSE_LIBRARY)
    end
  else ret (NewStringUTF env HADOOP_LZFSE_LIBRARY).

(** ** LzfseDecompressor.c *)

Definition Java_org_apache_hadoop_io_compress_lzfse_LzfseDecompressor_initIDs
    (env : JNIEnv) (clazz : jclass) : JNI unit :=
  (* Load liblzfse.so *)
  liblzfse <- dlopen HADOOP_LZFSE_LIBRARY (Z.lor RTLD_LAZY RTLD_GLOBAL) ;;
  if is_null liblzfse then
    diagnostic <- dlerror ;;
    let msg := snprintf 1000
      (String.append (String.append "Cannot load " HADOOP_LZFSE_LIBRARY)
         (String.append " (" (String.append (percent_s diagnostic) ")!"))) in
    THROW env "java/lang/UnsatisfiedLinkError" msg
  else
    (* Locate the required symbols *)
    dlerror ;;;
    LOAD_DYNAMIC_SYMBOL set_dlsym_lzfse_decode_buffer env liblzfse
      "lzfse_decode_buffer"
      (assign (set_LzfseDecompressor_compressedBuffer
                 (GetFieldID env clazz "compressedBuffer" "Ljava/nio/Buffer;")) ;;;
       assign (set_LzfseDecompressor_decompressedBuffer
                 (GetFieldID env clazz "decompressedBuffer" "Ljava/nio/Buffer;")) ;;;
       assign (set_LzfseDecompressor_internalBufferSize
                 (GetFieldID env clazz "internalBufferSize" "I"))).

Definition Java_org_apache_hadoop_io_compress_lzfse_LzfseDecompressor_decompressBytesDirect
    (env : JNIEnv) (thisj : jobject) (size : jint) : JNI jsize :=
  g <- load_statics ;;
  let compressed_buffer :=
    GetObjectField env thisj (LzfseDecompressor_compressedBuffer g) in
  let src_buffer := GetDirectBufferAddress env compressed_buffer in
  let src_size := size_t_of_jint size in
  let decompressed_buffer :=
    GetObjectField env thisj (LzfseDecompressor_decompressedBuffer g) in
  let dst_buffer := GetDirectBufferAddress env decompressed_buffer in
  let dst_size :=
    size_t_of_jint (GetIntField env thisj (LzfseDecompressor_internalBufferSize g)) in
  returned <- call_lzfse (dlsym_lzfse_decode_buffer g)
                dst_buffer dst_size src_buffer src_size NULL ;;
  let decoded := jsize_of_size_t returned in
  (if jsize_is_zero decoded && negb (size_is_zero src_size)
   then THROW env "java/lang/InternalError" "lzfse_encode_buffer failed"
   else ret tt) ;;;
  ret decoded.

End Bridge.

(** ** The specification's vocabulary *)

(** The error taxonomy of the spec, as the exceptions the C code raises.
    (The class of SymbolResolutionError comes with the [Platform].) *)
Definition CodecFailure (text : string) : throwable :=
  mkThrowable "java/lang/InternalError" text.

Definition LibraryLoadError {P : Platform} (diagnostic : string) : throwable :=
  mkThrowable "java/lang/UnsatisfiedLinkError"
    (snprintf 1000
       (String.append (String.append "Cannot load " HADOOP_LZFSE_LIBRARY)
          (String.append " (" (String.append diagnostic ")!")))).

(** During the step from [w] to [w'] the bridge made exactly one foreign
    call, and that call returned [returned]. *)
Definition foreign_returned (w w' : process) (returned : size_t) : Prop :=
  exists fn dst dst_size src src_size scratch,
    trace w' = trace w ++ [EvCall fn dst dst_size src src_size scratch returned].

(** How often the library was opened, and how often a symbol was resolved. *)
Fixpoint opens (t : list event) : nat :=
  match t with
  | [] => 0%nat
  | EvDlopen _ _ _ :: t' => S (opens t')
  | _ :: t' => opens t'
  end.

Fixpoint resolves (t : list event) : nat :=
  match t with
  | [] => 0%nat
  | EvDlsym _ _ _ :: t' => S (resolves t')
  | _ :: t' => resolves t'
  end.

(** The foreign contract the bridge trusts: a buffer function reports at
    most as many bytes as the destination size it was given. *)
Definition within_capacity (f : lzfse_fn) : Prop :=
  forall m dst dst_size src src_size scratch,
    word.unsigned (fst (f m dst dst_size src src_size scratch))
    <= word.unsigned dst_size.

(** A codec: [enc] stores [payload A] for the non-empty input [A] when the
    destination is large enough, and [dec] restores [A] from [payload A]
    when the destination is large enough. *)
Record codec (enc dec : lzfse_fn) (payload : list byte -> list byte) : Prop := {
  payload_nonempty : forall A, A <> [] -> payload A <> [];
  encode_stores :
    forall m dst dst_size src src_size scratch,
      let A := read m src (Z.to_nat (word.unsigned src_size)) in
      A <> [] ->
      Z.of_nat (List.length (payload A)) <= word.unsigned dst_size ->
      let out := enc m dst dst_size src src_size scratch in
      word.unsigned (fst out) = Z.of_nat (List.length (payload A)) /\
      read (snd out) dst (List.length (payload A)) = payload A;
  decode_restores :
    forall m dst dst_size src src_size scratch A,
      read m src (Z.to_nat (word.unsigned src_size)) = payload A ->
      A <> [] ->
      Z.of_nat (List.length A) <= word.unsigned dst_size ->
      let out := dec m dst dst_size src src_size scratch in
      word.unsigned (fst out) = Z.of_nat (List.length A) /\
      read (snd out) dst (List.length A) = A
}.

(** ** Concrete platforms and objects, to run the bridge on *)

Module Fixture.

(** A JVM with one compressor object (0x100) and one decompressor object
    (0x200), both with [internalBufferSize = capacity].  The compressor
    reads at 0x10000 and writes at 0x20000; the decompressor reads at
    0x20000 and writes at 0x40000. *)
Definition env (capacity : Z) : JNIEnv := {|
  GetFieldID := fun _ name _ =>
    if String.eqb name "uncompressedBuffer" then word.of_Z 16
    else if String.eqb name "compressedBuffer" then word.of_Z 17
    else if String.eqb name "decompressedBuffer" then word.of_Z 18
    else if String.eqb name "internalBufferSize" then word.of_Z 19
    else NULL;
  GetObjectField := fun obj fid => word.add obj fid;
  GetDirectBufferAddress := fun buf =>
    let b := word.unsigned buf in
    if b =? 272 then word.of_Z 65536            (* 0x100 + 16 *)
    else if b =? 273 then word.of_Z 131072      (* 0x100 + 17 *)
    else if b =? 529 then word.of_Z 131072      (* 0x200 + 17 *)
    else if b =? 530 then word.of_Z 262144      (* 0x200 + 18 *)
    else NULL;
  GetIntField := fun _ _ => word.of_Z capacity
|}.

Definition compressor : jobject := word.of_Z 256.
Definition decompressor : jobject := word.of_Z 512.
Definition clazz : jclass := word.of_Z 4096.

(** A one-byte-header "stored" codec: the payload of [A] is a marker byte
    followed by [A]. *)
Definition marker : byte := x53.

Definition stored_payload (A : list byte) : list byte := marker :: A.

Definition stored_encode : lzfse_fn :=
  fun m dst dst_size src src_size scratch =>
    let n := word.unsigned src_size in
    if (n =? 0) || (word.unsigned dst_size <? n + 1)
    then (word.of_Z 0, m)
    else (word.of_Z (n + 1), write m dst (marker :: read m src (Z.to_nat n))).

Definition stored_decode : lzfse_fn :=
  fun m dst dst_size src src_size scratch =>
    match read m src (Z.to_nat (word.unsigned src_size)) with
    | b :: A =>
        if Byte.eqb b marker && (Z.of_nat (List.length A) <=? word.unsigned dst_size)
        then (word.of_Z (Z.of_nat (List.length A)), write m dst A)
        else (word.of_Z 0, m)
    | [] => (word.of_Z 0, m)
    end.

(** A foreign function that reports [k] bytes whatever it is given. *)
Definition reports (k : Z) : lzfse_fn :=
  fun m dst dst_size src src_size scratch => (word.of_Z k, m).

(** A platform whose library file, when [present], loads at 0x7f00 and
    exports [lzfse_encode_buffer] at 0x7f10 (if [has_encode]) and
    [lzfse_decode_buffer] at 0x7f20 (if [has_decode]), with the code [enc]
    and [dec]; [dladdr] knows the two addresses if [addr_known]. *)
Definition platform (present has_encode has_decode addr_known : bool)
    (enc dec : lzfse_fn) : Platform := {|
  HADOOP_LZFSE_LIBRARY := "liblzfse.so";
  RTLD_LAZY := 1;
  RTLD_GLOBAL := 256;
  SymbolResolutionError := fun symbol =>
    mkThrowable "java/lang/UnsatisfiedLinkError" symbol;
  ld_open := fun file _ =>
    if present && String.eqb file "liblzfse.so" then word.of_Z 32512 else NULL;
  ld_sym := fun handle symbol =>
    if negb (word.unsigned handle =? 32512) then NULL
    else if has_encode && String.eqb symbol "lzfse_encode_buffer" then word.of_Z 32528
    else if has_decode && String.eqb symbol "lzfse_decode_buffer" then word.of_Z 32544
    else NULL;
  ld_diag := fun name => String.append name ": not found";
  ld_addr := fun p =>
    if addr_known && ((word.unsigned p =? 32528) || (word.unsigned p =? 32544))
    then Some "/usr/lib/liblzfse.so" else None;
  code_at := fun p =>
    if word.unsigned p =? 32528 then enc
    else if word.unsigned p =? 32544 then dec
    else reports 0
|}.

Definition stored : Platform :=
  platform true true true true stored_encode stored_decode.

Definition reporting (k : Z) : Platform :=
  platform true true true true (reports k) (reports k).

Definition encoder_only : Platform :=
  platform true true false true stored_encode stored_decode.

Definition decoder_only : Platform :=
  platform true false true true stored_encode stored_decode.

Definition no_library : Platform :=
  platform false true true true stored_encode stored_decode.

Definition no_dladdr : Platform :=
  platform true true true false stored_encode stored_decode.

(** The process after both classes were initialised, with [bytes] placed in
    the compressor's source buffer. *)
Definition loaded (P : Platform) (bytes : list byte) : process :=
  let w1 := final (@Java_org_apache_hadoop_io_compress_lzfse_LzfseCompressor_initIDs
                     P (env 0) clazz process_at_start) in
  let w2 := final (@Java_org_apache_hadoop_io_compress_lzfse_LzfseDecompressor_initIDs
                     P (env 0) clazz w1) in
  mkProcess (globals w2) (dl_err w2) (write (heap w2) (word.of_Z 65536) bytes) [].

Definition ten_As : list byte := List.repeat x41 10.

End Fixture.

(** The conversions and tests on machine integers are reasoned about
    through their lemmas, never unfolded by simplification. *)
Arguments is_null : simpl never.
Arguments size_t_of_jint : simpl never.
Arguments jsize_of_size_t : simpl never.
Arguments jsize_is_zero : simpl never.
Arguments size_is_zero : simpl never.
Arguments NULL : simpl never.
Arguments snprintf : simpl never.
Arguments String.append : simpl never.

(** ** Closed form of a bridged call

    [compressBytesDirect] and [decompressBytesDirect] are the same code up
    to the statics they read; [bridged] is what either computes once the
    function pointer, the two buffer addresses and the capacity are known. *)
Definition bridged {P : Platform} (fn dst : pointer) (capacity : jint)
    (src : pointer) (size : jint) (w : process) : result jsize :=
  let dst_size := size_t_of_jint capacity in
  let src_size := size_t_of_jint size in
  let out := code_at fn (heap w) dst dst_size src src_size NULL in
  mkResult (jsize_of_size_t (fst out))
    (if jsize_is_zero (jsize_of_size_t (fst out)) && negb (size_is_zero src_size)
     then Some (CodecFailure "lzfse_encode_buffer failed") else None)
    (mkProcess (globals w) (dl_err w) (snd out)
       (trace w ++ [EvCall fn dst dst_size src src_size NULL (fst out)])).

(** What the foreign function answers to a [bridged] call: the count it
    returns and the memory it leaves. *)
Definition bridged_out {P : Platform} (fn dst : pointer) (capacity : jint)
    (src : pointer) (size : jint) (w : process) : size_t * memory :=
  code_at fn (heap w) dst (size_t_of_jint capacity) src (size_t_of_jint size) NULL.

(** Short names for the five entry points. *)
Abbreviation compressor_initIDs :=
  Java_org_apache_hadoop_io_compress_lzfse_LzfseCompressor_initIDs.
Abbreviation compressBytesDirect :=
  Java_org_apache_hadoop_io_compress_lzfse_LzfseCompressor_compressBytesDirect.
Abbreviation getLibraryName :=
  Java_org_apache_hadoop_io_compress_lzfse_LzfseCompressor_getLibraryName.
Abbreviation decompressor_initIDs :=
  Java_org_apache_hadoop_io_compress_lzfse_LzfseDecompressor_initIDs.
Abbreviation decompressBytesDirect :=
  Java_org_apache_hadoop_io_compress_lzfse_LzfseDecompressor_decompressBytesDirect.

(** The views a call binds: where the compressor and the decompressor read
    and write, and the capacity they declare for the destination. *)
Definition compress_src (env : JNIEnv) (thisj : jobject) (g : statics) : pointer :=
  GetDirectBufferAddress env
    (GetObjectField env thisj (LzfseCompressor_uncompressedBuffer g)).
Definition compress_dst (env : JNIEnv) (thisj : jobject) (g : statics) : pointer :=
  GetDirectBufferAddress env
    (GetObjectField env thisj (LzfseCompressor_compressedBuffer g)).
Definition compress_capacity (env : JNIEnv) (thisj : jobject) (g : statics) : jint :=
  GetIntField env thisj (LzfseCompressor_internalBufferSize g).
Definition decompress_src (env : JNIEnv) (thisj : jobject) (g : statics) : pointer :=
  GetDirectBufferAddress env
    (GetObjectField env thisj (LzfseDecompressor_compressedBuffer g)).
Definition decompress_dst (env : JNIEnv) (thisj : jobject) (g : statics) : pointer :=
  GetDirectBufferAddress env
    (GetObjectField env thisj (LzfseDecompressor_decompressedBuffer g)).
Definition decompress_capacity (env : JNIEnv) (thisj : jobject) (g : statics) : jint :=
  GetIntField env thisj (LzfseDecompressor_internalBufferSize g).

(** The fixture's calls: compress the first [size] bytes of [bytes] with a
    destination of [capacity] bytes, and decompress [size] bytes in the
    process [w]. *)
Definition compress_on (P : Platform) (capacity size : Z) (bytes : list byte)
    : result jsize :=
  @Java_org_apache_hadoop_io_compress_lzfse_LzfseCompressor_compressBytesDirect
    P (Fixture.env capacity) Fixture.compressor (word.of_Z size)
    (Fixture.loaded P bytes).

Definition decompress_in (P : Platform) (capacity : Z) (size : jint) (w : process)
    : result jsize :=
  @Java_org_apache_hadoop_io_compress_lzfse_LzfseDecompressor_decompressBytesDirect
    P (Fixture.env capacity) Fixture.decompressor size w.

(** * Properties *)

(** ** Machine integers *)

Lemma is_null_iff (p : pointer) : is_null p = true <-> p = NULL.
Proof.
  unfold is_null. destruct (word.eqb_spec p NULL); split; congruence.
Qed.

Lemma jsize_is_zero_iff (x : jsize) : jsize_is_zero x = true <-> x = word.of_Z 0.
Proof.
  unfold jsize_is_zero. destruct (word.eqb_spec x (word.of_Z 0)); split; congruence.
Qed.

Lemma size_is_zero_iff (x : size_t) : size_is_zero x = true <-> x = word.of_Z 0.
Proof.
  unfold size_is_zero. destruct (word.eqb_spec x (word.of_Z 0)); split; congruence.
Qed.

(** Sign extension: a non-negative [jint] keeps its value as a [size_t], a
    negative one lands just below [2 ^ 64]. *)
Lemma unsigned_size_t_of_jint (x : jint) :
  word.unsigned (size_t_of_jint x) =
  if 0 <=? word.signed x then word.signed x else word.signed x + 2 ^ 64.
Proof.
  unfold size_t_of_jint. rewrite word.unsigned_of_Z. unfold word.wrap.
  pose proof (word.signed_range x) as R.
  change (2 ^ (32 - 1)) with 2147483648 in R.
  destruct (Z.leb_spec 0 (word.signed x)).
  - apply Z.mod_small. lia.
  - rewrite <- (Z.mod_add _ 1) by lia. apply Z.mod_small. lia.
Qed.

Lemma size_is_zero_of_jint (x : jint) :
  size_is_zero (size_t_of_jint x) = jsize_is_zero x.
Proof.
  apply eq_true_iff_eq. rewrite size_is_zero_iff, jsize_is_zero_iff.
  pose proof (unsigned_size_t_of_jint x) as U.
  pose proof (word.signed_range x) as R.
  change (2 ^ (32 - 1)) with 2147483648 in R.
  split; intros H.
  - apply word.signed_inj. rewrite word.signed_of_Z.
    rewrite H, word.unsigned_of_Z_0 in U.
    destruct (Z.leb_spec 0 (word.signed x)); [| lia].
    rewrite <- U. reflexivity.
  - subst x. reflexivity.
Qed.

Lemma unsigned_jsize_of_size_t (r : size_t) :
  word.unsigned (jsize_of_size_t r) = word.unsigned r mod 2 ^ 32.
Proof. unfold jsize_of_size_t. rewrite word.unsigned_of_Z. reflexivity. Qed.

Lemma jsize_is_zero_low32 (r : size_t) :
  jsize_is_zero (jsize_of_size_t r) = (word.unsigned r mod 2 ^ 32 =? 0).
Proof.
  apply eq_true_iff_eq. rewrite jsize_is_zero_iff, Z.eqb_eq.
  rewrite <- unsigned_jsize_of_size_t.
  split; intros H.
  - rewrite H. reflexivity.
  - apply word.unsigned_inj. rewrite H. reflexivity.
Qed.

Lemma signed_jsize_of_size_t (r : size_t) :
  word.unsigned r < 2 ^ 31 -> word.signed (jsize_of_size_t r) = word.unsigned r.
Proof.
  intros H. pose proof (word.unsigned_range r).
  unfold jsize_of_size_t. rewrite word.signed_of_Z.
  apply word.swrap_inrange. change (2 ^ (32 - 1)) with (2 ^ 31). lia.
Qed.

(** ** The two native methods are [bridged] calls *)

Section Calls.
Context {P : Platform}.
Variables (env : JNIEnv) (thisj : jobject) (size : jint) (w : process).

Lemma compressBytesDirect_bridged :
  compressBytesDirect env thisj size w =
  bridged (dlsym_lzfse_encode_buffer (globals w))
    (compress_dst env thisj (globals w)) (compress_capacity env thisj (globals w))
    (compress_src env thisj (globals w)) size w.
Proof.
  unfold Java_org_apache_hadoop_io_compress_lzfse_LzfseCompressor_compressBytesDirect,
    bridged, bind, load_statics, call_lzfse, THROW, ret,
    compress_src, compress_dst, compress_capacity,
    decompress_src, decompress_dst, decompress_capacity; cbn.
  match goal with |- context [if ?c then _ else _] => destruct c end; cbn; reflexivity.
Qed.

Lemma decompressBytesDirect_bridged :
  decompressBytesDirect env thisj size w =
  bridged (dlsym_lzfse_decode_buffer (globals w))
    (decompress_dst env thisj (globals w)) (decompress_capacity env thisj (globals w))
    (decompress_src env thisj (globals w)) size w.
Proof.
  unfold Java_org_apache_hadoop_io_compress_lzfse_LzfseDecompressor_decompressBytesDirect,
    bridged, bind, load_statics, call_lzfse, THROW, ret,
    compress_src, compress_dst, compress_capacity,
    decompress_src, decompress_dst, decompress_capacity; cbn.
  match goal with |- context [if ?c then _ else _] => destruct c end; cbn; reflexivity.
Qed.

End Calls.

(** ** What a [bridged] call does *)

Section Bridged.
Context {P : Platform}.
Variables (fn dst : pointer) (capacity : jint) (src : pointer) (size : jint).
Variable w : process.

Lemma bridged_trace :
  trace (final (bridged fn dst capacity src size w)) =
  trace w ++ [EvCall fn dst (size_t_of_jint capacity) src (size_t_of_jint size)
                NULL (fst (bridged_out fn dst capacity src size w))].
Proof. reflexivity. Qed.

Lemma bridged_returned (returned : size_t) :
  foreign_returned w (final (bridged fn dst capacity src size w)) returned <->
  returned = fst (bridged_out fn dst capacity src size w).
Proof.
  unfold foreign_returned. rewrite bridged_trace. split.
  - intros (fn' & dst' & ds' & src' & ss' & sc' & E).
    apply app_inv_head in E. injection E. intros; congruence.
  - intros ->. do 6 eexists. reflexivity.
Qed.

Lemma bridged_thrown :
  thrown (bridged fn dst capacity src size w) =
  if (word.unsigned (fst (bridged_out fn dst capacity src size w)) mod 2 ^ 32 =? 0) && negb (jsize_is_zero size)
  then Some (CodecFailure "lzfse_encode_buffer failed") else None.
Proof.
  unfold bridged; cbn.
  rewrite jsize_is_zero_low32, size_is_zero_of_jint. reflexivity.
Qed.

Lemma bridged_value :
  value (bridged fn dst capacity src size w) = jsize_of_size_t (fst (bridged_out fn dst capacity src size w)).
Proof. reflexivity. Qed.

Lemma bridged_globals :
  globals (final (bridged fn dst capacity src size w)) = globals w.
Proof. reflexivity. Qed.

Lemma bridged_zero_rule :
  exists returned,
    foreign_returned w (final (bridged fn dst capacity src size w)) returned /\
    (thrown (bridged fn dst capacity src size w)
       = Some (CodecFailure "lzfse_encode_buffer failed") <->
     word.unsigned returned mod 2 ^ 32 = 0 /\ size <> word.of_Z 0) /\
    (thrown (bridged fn dst capacity src size w) = None <->
     ~ (word.unsigned returned mod 2 ^ 32 = 0 /\ size <> word.of_Z 0)) /\
    (word.unsigned returned < 2 ^ 32 ->
     (word.unsigned returned mod 2 ^ 32 = 0 <-> returned = word.of_Z 0)).
Proof.
  exists (fst (bridged_out fn dst capacity src size w)). split; [apply bridged_returned; reflexivity |].
  rewrite bridged_thrown.
  assert (Size : jsize_is_zero size = false <-> size <> word.of_Z 0).
  { rewrite <- jsize_is_zero_iff.
    destruct (jsize_is_zero size); split; congruence. }
  repeat split.
  - destruct (Z.eqb_spec (word.unsigned (fst (bridged_out fn dst capacity src size w)) mod 2 ^ 32) 0);
      [assumption | discriminate].
  - apply Size. destruct (jsize_is_zero size);
      [rewrite andb_false_r in *; discriminate | reflexivity].
  - intros [Low Nonempty]. apply Size in Nonempty.
    rewrite Nonempty, (proj2 (Z.eqb_eq _ _) Low). reflexivity.
  - intros Quiet [Low Nonempty]. apply Size in Nonempty.
    rewrite Nonempty, (proj2 (Z.eqb_eq _ _) Low) in Quiet. discriminate.
  - intros Not.
    destruct (Z.eqb_spec (word.unsigned (fst (bridged_out fn dst capacity src size w)) mod 2 ^ 32) 0) as [Low | Low];
      [| reflexivity].
    destruct (jsize_is_zero size) eqn:S0; [reflexivity |].
    exfalso. apply Not. split; [exact Low | apply Size; reflexivity].
  - intros Low. apply word.unsigned_inj. rewrite word.unsigned_of_Z_0.
    pose proof (word.unsigned_range (fst (bridged_out fn dst capacity src size w))).
    rewrite Z.mod_small in Low by lia. exact Low.
  - intros ->. rewrite word.unsigned_of_Z_0. reflexivity.
Qed.

Lemma bridged_verbatim (returned : size_t) :
  foreign_returned w (final (bridged fn dst capacity src size w)) returned ->
  0 < word.unsigned returned < 2 ^ 31 ->
  thrown (bridged fn dst capacity src size w) = None /\
  word.signed (value (bridged fn dst capacity src size w)) = word.unsigned returned.
Proof.
  intros R Range. apply bridged_returned in R. subst returned. split.
  - rewrite bridged_thrown. rewrite Z.mod_small by lia.
    destruct (Z.eqb_spec (word.unsigned (fst (bridged_out fn dst capacity src size w))) 0); [lia | reflexivity].
  - rewrite bridged_value. apply signed_jsize_of_size_t. lia.
Qed.

Lemma bridged_within_capacity :
  within_capacity (code_at fn) ->
  0 <= word.signed capacity ->
  0 <= word.signed (value (bridged fn dst capacity src size w))
    <= word.signed capacity.
Proof.
  intros C Cap. rewrite bridged_value.
  pose proof (C (heap w) dst (size_t_of_jint capacity) src (size_t_of_jint size) NULL) as B.
  fold (bridged_out fn dst capacity src size w) in B. rewrite unsigned_size_t_of_jint in B.
  destruct (Z.leb_spec 0 (word.signed capacity)); [| lia].
  pose proof (word.unsigned_range (fst (bridged_out fn dst capacity src size w))).
  pose proof (word.signed_range capacity) as R.
  change (2 ^ (32 - 1)) with (2 ^ 31) in R.
  rewrite signed_jsize_of_size_t by lia. lia.
Qed.

Lemma bridged_failure_text (e : throwable) :
  thrown (bridged fn dst capacity src size w) = Some e ->
  e = CodecFailure "lzfse_encode_buffer failed".
Proof.
  rewrite bridged_thrown.
  destruct (_ && _); [intros [= <-]; reflexivity | discriminate].
Qed.

End Bridged.

(** ** The fixture's codec honours the foreign contract *)

Lemma stored_encode_within_capacity : within_capacity Fixture.stored_encode.
Proof.
  intros m dst dst_size src src_size scratch. unfold Fixture.stored_encode.
  pose proof (word.unsigned_range dst_size) as D.
  pose proof (word.unsigned_range src_size) as S.
  destruct (Z.eqb_spec (word.unsigned src_size) 0) as [E | E]; cbn [orb fst].
  - rewrite word.unsigned_of_Z_0. lia.
  - destruct (Z.ltb_spec (word.unsigned dst_size) (word.unsigned src_size + 1));
      cbn [fst].
    + rewrite word.unsigned_of_Z_0. lia.
    + rewrite word.unsigned_of_Z_nowrap; lia.
Qed.

Lemma stored_decode_within_capacity : within_capacity Fixture.stored_decode.
Proof.
  intros m dst dst_size src src_size scratch. unfold Fixture.stored_decode.
  pose proof (word.unsigned_range dst_size) as D.
  destruct (read m src (Z.to_nat (word.unsigned src_size))) as [| b A]; cbn [fst].
  - rewrite word.unsigned_of_Z_0. lia.
  - destruct (Byte.eqb b Fixture.marker); cbn [andb fst].
    + destruct (Z.leb_spec (Z.of_nat (List.length A)) (word.unsigned dst_size));
        cbn [fst].
      * rewrite word.unsigned_of_Z_nowrap; lia.
      * rewrite word.unsigned_of_Z_0. lia.
    + rewrite word.unsigned_of_Z_0. lia.
Qed.

(** ** The claims about a compress or decompress call *)

(** C1 (as amended).  A compress or decompress call makes one foreign call
    and raises CodecFailure exactly when the value that call returned,
    narrowed to the 32-bit [jsize], is 0 (the returned [size_t] is a
    multiple of [2 ^ 32]) and the given source length is nonzero; it raises
    nothing otherwise, so with source length 0 a zero return is accepted.
    For a returned value below [2 ^ 32] the narrowed value is 0 exactly when
    the returned value is 0. *)
Theorem zero_return_disambiguation {P : Platform}
    (env : JNIEnv) (thisj : jobject) (size : jint) (w : process) :
  (exists returned,
     foreign_returned w (final (compressBytesDirect env thisj size w)) returned /\
     (thrown (compressBytesDirect env thisj size w)
        = Some (CodecFailure "lzfse_encode_buffer failed") <->
      word.unsigned returned mod 2 ^ 32 = 0 /\ size <> word.of_Z 0) /\
     (thrown (compressBytesDirect env thisj size w) = None <->
      ~ (word.unsigned returned mod 2 ^ 32 = 0 /\ size <> word.of_Z 0)) /\
     (word.unsigned returned < 2 ^ 32 ->
      (word.unsigned returned mod 2 ^ 32 = 0 <-> returned = word.of_Z 0))) /\
  (exists returned,
     foreign_returned w (final (decompressBytesDirect env thisj size w)) returned /\
     (thrown (decompressBytesDirect env thisj size w)
        = Some (CodecFailure "lzfse_encode_buffer failed") <->
      word.unsigned returned mod 2 ^ 32 = 0 /\ size <> word.of_Z 0) /\
     (thrown (decompressBytesDirect env thisj size w) = None <->
      ~ (word.unsigned returned mod 2 ^ 32 = 0 /\ size <> word.of_Z 0)) /\
     (word.unsigned returned < 2 ^ 32 ->
      (word.unsigned returned mod 2 ^ 32 = 0 <-> returned = word.of_Z 0))).
Proof.
  rewrite compressBytesDirect_bridged, decompressBytesDirect_bridged.
  split; apply bridged_zero_rule.
Qed.

(** C1 as stated fails: the encoder reports [2 ^ 32] bytes, which is not 0,
    for a source of length 1, and the call raises CodecFailure. *)
Lemma wide_return_raises_CodecFailure :
  foreign_returned (Fixture.loaded (Fixture.reporting 4294967296) [])
    (final (compress_on (Fixture.reporting 4294967296) 16 1 []))
    (word.of_Z 4294967296) /\
  word.unsigned (word.of_Z 4294967296 : size_t) = 4294967296 /\
  word.signed (word.of_Z 1 : jint) = 1 /\
  thrown (compress_on (Fixture.reporting 4294967296) 16 1 [])
    = Some (CodecFailure "lzfse_encode_buffer failed").
Proof.
  split; [| vm_compute; repeat split].
  unfold compress_on. rewrite compressBytesDirect_bridged.
  apply bridged_returned. vm_compute. reflexivity.
Qed.

(** C2 (as amended).  When the foreign function returns a nonzero value
    that the signed 32-bit result type can hold (below [2 ^ 31]), the call
    raises nothing and returns that value unchanged.  The destination
    capacity plays no part. *)
Theorem representable_return_verbatim {P : Platform}
    (env : JNIEnv) (thisj : jobject) (size : jint) (w : process)
    (returned : size_t) :
  0 < word.unsigned returned < 2 ^ 31 ->
  (foreign_returned w (final (compressBytesDirect env thisj size w)) returned ->
   thrown (compressBytesDirect env thisj size w) = None /\
   word.signed (value (compressBytesDirect env thisj size w))
     = word.unsigned returned) /\
  (foreign_returned w (final (decompressBytesDirect env thisj size w)) returned ->
   thrown (decompressBytesDirect env thisj size w) = None /\
   word.signed (value (decompressBytesDirect env thisj size w))
     = word.unsigned returned).
Proof.
  intros Range.
  rewrite compressBytesDirect_bridged, decompressBytesDirect_bridged.
  split; intros R; apply bridged_verbatim; assumption.
Qed.

(** Seventeen bytes reported into a destination of sixteen: returned as is. *)
Lemma representable_return_verbatim_witness :
  word.signed (compress_capacity (Fixture.env 16) Fixture.compressor
                 (globals (Fixture.loaded (Fixture.reporting 17) []))) = 16 /\
  0 < word.unsigned (word.of_Z 17 : size_t) < 2 ^ 31 /\
  thrown (compress_on (Fixture.reporting 17) 16 1 []) = None /\
  word.signed (value (compress_on (Fixture.reporting 17) 16 1 [])) = 17.
Proof.
  split; [vm_compute; reflexivity |].
  split; [vm_compute; split; reflexivity |].
  apply (proj1 (@representable_return_verbatim (Fixture.reporting 17)
                  (Fixture.env 16) Fixture.compressor (word.of_Z 1)
                  (Fixture.loaded (Fixture.reporting 17) []) (word.of_Z 17)
                  ltac:(vm_compute; split; reflexivity))).
  rewrite compressBytesDirect_bridged. apply bridged_returned.
  vm_compute. reflexivity.
Defined.

(** C2 as stated fails: the encoder reports [2 ^ 31] bytes, a nonzero
    value; the call raises nothing but returns -2147483648. *)
Lemma unrepresentable_return_is_changed :
  foreign_returned (Fixture.loaded (Fixture.reporting 2147483648) [])
    (final (compress_on (Fixture.reporting 2147483648) 16 1 []))
    (word.of_Z 2147483648) /\
  word.unsigned (word.of_Z 2147483648 : size_t) = 2147483648 /\
  thrown (compress_on (Fixture.reporting 2147483648) 16 1 []) = None /\
  word.signed (value (compress_on (Fixture.reporting 2147483648) 16 1 []))
    = -2147483648.
Proof.
  split; [| vm_compute; repeat split].
  unfold compress_on. rewrite compressBytesDirect_bridged.
  apply bridged_returned. vm_compute. reflexivity.
Qed.

(** C4.  A compress or decompress call invokes the resolved foreign function
    once, with the arguments (destination address, destination capacity,
    source address, source length, NULL), in this order.  The source length
    is the given [size] and the destination capacity is the object's
    [internalBufferSize], both converted to [size_t]; the conversion keeps
    every non-negative value. *)
Theorem foreign_call_arguments {P : Platform}
    (env : JNIEnv) (thisj : jobject) (size : jint) (w : process) :
  (exists returned,
     trace (final (compressBytesDirect env thisj size w)) =
     trace w ++
     [EvCall (dlsym_lzfse_encode_buffer (globals w))
        (GetDirectBufferAddress env
           (GetObjectField env thisj (LzfseCompressor_compressedBuffer (globals w))))
        (size_t_of_jint
           (GetIntField env thisj (LzfseCompressor_internalBufferSize (globals w))))
        (GetDirectBufferAddress env
           (GetObjectField env thisj (LzfseCompressor_uncompressedBuffer (globals w))))
        (size_t_of_jint size)
        NULL
        returned]) /\
  (exists returned,
     trace (final (decompressBytesDirect env thisj size w)) =
     trace w ++
     [EvCall (dlsym_lzfse_decode_buffer (globals w))
        (GetDirectBufferAddress env
           (GetObjectField env thisj (LzfseDecompressor_decompressedBuffer (globals w))))
        (size_t_of_jint
           (GetIntField env thisj (LzfseDecompressor_internalBufferSize (globals w))))
        (GetDirectBufferAddress env
           (GetObjectField env thisj (LzfseDecompressor_compressedBuffer (globals w))))
        (size_t_of_jint size)
        NULL
        returned]) /\
  (forall n : jint,
     word.unsigned (size_t_of_jint n) =
     if 0 <=? word.signed n then word.signed n else word.signed n + 2 ^ 64).
Proof.
  rewrite compressBytesDirect_bridged, decompressBytesDirect_bridged.
  split; [| split].
  - eexists. apply bridged_trace.
  - eexists. apply bridged_trace.
  - apply unsigned_size_t_of_jint.
Qed.

(** C6 (as amended).  If the foreign functions honour their contract (they
    report at most the destination size they were given) and the declared
    capacity is not negative, then a call that raises nothing returns a
    non-negative byte count that is at most the declared capacity. *)
Theorem count_within_capacity_under_contract {P : Platform}
    (env : JNIEnv) (thisj : jobject) (size : jint) (w : process) :
  within_capacity (code_at (dlsym_lzfse_encode_buffer (globals w))) ->
  within_capacity (code_at (dlsym_lzfse_decode_buffer (globals w))) ->
  (0 <= word.signed (compress_capacity env thisj (globals w)) ->
   thrown (compressBytesDirect env thisj size w) = None ->
   0 <= word.signed (value (compressBytesDirect env thisj size w))
     <= word.signed (compress_capacity env thisj (globals w))) /\
  (0 <= word.signed (decompress_capacity env thisj (globals w)) ->
   thrown (decompressBytesDirect env thisj size w) = None ->
   0 <= word.signed (value (decompressBytesDirect env thisj size w))
     <= word.signed (decompress_capacity env thisj (globals w))).
Proof.
  intros Enc Dec.
  rewrite compressBytesDirect_bridged, decompressBytesDirect_bridged.
  split; intros Cap _; apply bridged_within_capacity; assumption.
Qed.

(** Ten bytes stored into a destination of sixteen take eleven. *)
Lemma count_within_capacity_under_contract_witness :
  thrown (compress_on Fixture.stored 16 10 Fixture.ten_As) = None /\
  0 <= word.signed (value (compress_on Fixture.stored 16 10 Fixture.ten_As)) <= 16.
Proof.
  split; [vm_compute; reflexivity |].
  apply (proj1 (@count_within_capacity_under_contract Fixture.stored
                  (Fixture.env 16) Fixture.compressor (word.of_Z 10)
                  (Fixture.loaded Fixture.stored Fixture.ten_As)
                  stored_encode_within_capacity stored_decode_within_capacity)).
  - vm_compute. discriminate.
  - vm_compute. reflexivity.
Defined.

(** C6 as stated fails: the bridge does not compare the count with the
    capacity, so seventeen bytes reported into a destination of sixteen
    come back as a success of seventeen. *)
Lemma count_may_exceed_capacity :
  thrown (compress_on (Fixture.reporting 17) 16 1 []) = None /\
  word.signed (compress_capacity (Fixture.env 16) Fixture.compressor
                 (globals (Fixture.loaded (Fixture.reporting 17) []))) = 16 /\
  word.signed (value (compress_on (Fixture.reporting 17) 16 1 [])) = 17.
Proof. vm_compute. repeat split. Qed.

(** C9.  Whenever a decompress call raises, the exception is an
    [InternalError] whose text is "lzfse_encode_buffer failed": it names the
    encoder although the decoder was called. *)
Theorem decompress_failure_names_encoder {P : Platform}
    (env : JNIEnv) (thisj : jobject) (size : jint) (w : process) (e : throwable) :
  thrown (decompressBytesDirect env thisj size w) = Some e ->
  e = mkThrowable "java/lang/InternalError" "lzfse_encode_buffer failed".
Proof.
  rewrite decompressBytesDirect_bridged. apply bridged_failure_text.
Qed.

(** Three bytes that do not start with the marker are rejected. *)
Lemma decompress_failure_names_encoder_witness :
  exists e,
    thrown (decompress_in Fixture.stored 16 (word.of_Z 3)
              (Fixture.loaded Fixture.stored [])) = Some e /\
    e = mkThrowable "java/lang/InternalError" "lzfse_encode_buffer failed".
Proof.
  eexists. split; [vm_compute; reflexivity |].
  apply (@decompress_failure_names_encoder Fixture.stored (Fixture.env 16)
           Fixture.decompressor (word.of_Z 3) (Fixture.loaded Fixture.stored [])).
  vm_compute. reflexivity.
Defined.

(** C10.  Neither a compress nor a decompress call changes the statics (the
    resolved function pointers and the cached field identifiers), whether
    it raises or not; nor does [getLibraryName]. *)
Theorem calls_preserve_statics {P : Platform}
    (env : JNIEnv) (thisj : jobject) (size : jint) (clazz : jclass) (w : process) :
  globals (final (compressBytesDirect env thisj size w)) = globals w /\
  globals (final (decompressBytesDirect env thisj size w)) = globals w /\
  globals (final (getLibraryName env clazz w)) = globals w.
Proof.
  rewrite compressBytesDirect_bridged, decompressBytesDirect_bridged.
  repeat split.
  unfold Java_org_apache_hadoop_io_compress_lzfse_LzfseCompressor_getLibraryName,
    bind, load_statics, dladdr, ret; cbn.
  destruct (is_null _); cbn; [reflexivity |].
  destruct (ld_addr _); reflexivity.
Qed.

(** ** Initialisation *)

Lemma opens_app (t u : list event) : opens (t ++ u) = (opens t + opens u)%nat.
Proof.
  induction t as [| e t IH]; [reflexivity |].
  destruct e; cbn [app opens]; rewrite IH; reflexivity.
Qed.

Lemma resolves_app (t u : list event) :
  resolves (t ++ u) = (resolves t + resolves u)%nat.
Proof.
  induction t as [| e t IH]; [reflexivity |].
  destruct e; cbn [app resolves]; rewrite IH; reflexivity.
Qed.

Section Init.
Context {P : Platform}.
Variables (env : JNIEnv) (clazz : jclass) (w : process).

(** The three ways [initIDs] of the compressor can go. *)
Lemma compressor_initIDs_no_library :
  is_null (ld_open HADOOP_LZFSE_LIBRARY (Z.lor RTLD_LAZY RTLD_GLOBAL)) = true ->
  compressor_initIDs env clazz w =
  mkResult tt (Some (LibraryLoadError (ld_diag HADOOP_LZFSE_LIBRARY)))
    (mkProcess (globals w) None (heap w)
       (trace w ++ [EvDlopen HADOOP_LZFSE_LIBRARY (Z.lor RTLD_LAZY RTLD_GLOBAL) (ld_open HADOOP_LZFSE_LIBRARY (Z.lor RTLD_LAZY RTLD_GLOBAL))])).
Proof.
  intros H.
  unfold Java_org_apache_hadoop_io_compress_lzfse_LzfseCompressor_initIDs,
    bind, dlopen, emit, set_dl_err, dlerror, THROW, ret; cbn.
  rewrite H. reflexivity.
Qed.

Lemma compressor_initIDs_no_symbol :
  is_null (ld_open HADOOP_LZFSE_LIBRARY (Z.lor RTLD_LAZY RTLD_GLOBAL)) = false ->
  is_null (ld_sym (ld_open HADOOP_LZFSE_LIBRARY (Z.lor RTLD_LAZY RTLD_GLOBAL)) "lzfse_encode_buffer") = true ->
  compressor_initIDs env clazz w =
  mkResult tt (Some (SymbolResolutionError "lzfse_encode_buffer"))
    (mkProcess
       (set_dlsym_lzfse_encode_buffer (ld_sym (ld_open HADOOP_LZFSE_LIBRARY (Z.lor RTLD_LAZY RTLD_GLOBAL)) "lzfse_encode_buffer") (globals w))
       (Some (ld_diag "lzfse_encode_buffer")) (heap w)
       ((trace w ++ [EvDlopen HADOOP_LZFSE_LIBRARY (Z.lor RTLD_LAZY RTLD_GLOBAL) (ld_open HADOOP_LZFSE_LIBRARY (Z.lor RTLD_LAZY RTLD_GLOBAL))]) ++
        [EvDlsym (ld_open HADOOP_LZFSE_LIBRARY (Z.lor RTLD_LAZY RTLD_GLOBAL)) "lzfse_encode_buffer" (ld_sym (ld_open HADOOP_LZFSE_LIBRARY (Z.lor RTLD_LAZY RTLD_GLOBAL)) "lzfse_encode_buffer")])).
Proof.
  intros H S.
  unfold Java_org_apache_hadoop_io_compress_lzfse_LzfseCompressor_initIDs,
    LOAD_DYNAMIC_SYMBOL, bind, dlopen, dlsym, emit, set_dl_err, dlerror, assign,
    THROW, ret; cbn.
  rewrite H; cbn. rewrite S; cbn. reflexivity.
Qed.

Lemma compressor_initIDs_loaded :
  is_null (ld_open HADOOP_LZFSE_LIBRARY (Z.lor RTLD_LAZY RTLD_GLOBAL)) = false ->
  is_null (ld_sym (ld_open HADOOP_LZFSE_LIBRARY (Z.lor RTLD_LAZY RTLD_GLOBAL)) "lzfse_encode_buffer") = false ->
  compressor_initIDs env clazz w =
  mkResult tt None
    (mkProcess
       (set_LzfseCompressor_internalBufferSize
          (GetFieldID env clazz "internalBufferSize" "I")
          (set_LzfseCompressor_compressedBuffer
             (GetFieldID env clazz "compressedBuffer" "Ljava/nio/Buffer;")
             (set_LzfseCompressor_uncompressedBuffer
                (GetFieldID env clazz "uncompressedBuffer" "Ljava/nio/Buffer;")
                (set_dlsym_lzfse_encode_buffer
                   (ld_sym (ld_open HADOOP_LZFSE_LIBRARY (Z.lor RTLD_LAZY RTLD_GLOBAL)) "lzfse_encode_buffer") (globals w)))))
       None (heap w)
       ((trace w ++ [EvDlopen HADOOP_LZFSE_LIBRARY (Z.lor RTLD_LAZY RTLD_GLOBAL) (ld_open HADOOP_LZFSE_LIBRARY (Z.lor RTLD_LAZY RTLD_GLOBAL))]) ++
        [EvDlsym (ld_open HADOOP_LZFSE_LIBRARY (Z.lor RTLD_LAZY RTLD_GLOBAL)) "lzfse_encode_buffer" (ld_sym (ld_open HADOOP_LZFSE_LIBRARY (Z.lor RTLD_LAZY RTLD_GLOBAL)) "lzfse_encode_buffer")])).
Proof.
  intros H S.
  unfold Java_org_apache_hadoop_io_compress_lzfse_LzfseCompressor_initIDs,
    LOAD_DYNAMIC_SYMBOL, bind, dlopen, dlsym, emit, set_dl_err, dlerror, assign,
    THROW, ret; cbn.
  rewrite H; cbn. rewrite S; cbn. reflexivity.
Qed.

(** And the same three for the decompressor. *)
Lemma decompressor_initIDs_no_library :
  is_null (ld_open HADOOP_LZFSE_LIBRARY (Z.lor RTLD_LAZY RTLD_GLOBAL)) = true ->
  decompressor_initIDs env clazz w =
  mkResult tt (Some (LibraryLoadError (ld_diag HADOOP_LZFSE_LIBRARY)))
    (mkProcess (globals w) None (heap w)
       (trace w ++ [EvDlopen HADOOP_LZFSE_LIBRARY (Z.lor RTLD_LAZY RTLD_GLOBAL) (ld_open HADOOP_LZFSE_LIBRARY (Z.lor RTLD_LAZY RTLD_GLOBAL))])).
Proof.
  intros H.
  unfold Java_org_apache_hadoop_io_compress_lzfse_LzfseDecompressor_initIDs,
    bind, dlopen, emit, set_dl_err, dlerror, THROW, ret; cbn.
  rewrite H. reflexivity.
Qed.

Lemma decompressor_initIDs_no_symbol :
  is_null (ld_open HADOOP_LZFSE_LIBRARY (Z.lor RTLD_LAZY RTLD_GLOBAL)) = false ->
  is_null (ld_sym (ld_open HADOOP_LZFSE_LIBRARY (Z.lor RTLD_LAZY RTLD_GLOBAL)) "lzfse_decode_buffer") = true ->
  decompressor_initIDs env clazz w =
  mkResult tt (Some (SymbolResolutionError "lzfse_decode_buffer"))
    (mkProcess
       (set_dlsym_lzfse_decode_buffer (ld_sym (ld_open HADOOP_LZFSE_LIBRARY (Z.lor RTLD_LAZY RTLD_GLOBAL)) "lzfse_decode_buffer") (globals w))
       (Some (ld_diag "lzfse_decode_buffer")) (heap w)
       ((trace w ++ [EvDlopen HADOOP_LZFSE_LIBRARY (Z.lor RTLD_LAZY RTLD_GLOBAL) (ld_open HADOOP_LZFSE_LIBRARY (Z.lor RTLD_LAZY RTLD_GLOBAL))]) ++
        [EvDlsym (ld_open HADOOP_LZFSE_LIBRARY (Z.lor RTLD_LAZY RTLD_GLOBAL)) "lzfse_decode_buffer" (ld_sym (ld_open HADOOP_LZFSE_LIBRARY (Z.lor RTLD_LAZY RTLD_GLOBAL)) "lzfse_decode_buffer")])).
Proof.
  intros H S.
  unfold Java_org_apache_hadoop_io_compress_lzfse_LzfseDecompressor_initIDs,
    LOAD_DYNAMIC_SYMBOL, bind, dlopen, dlsym, emit, set_dl_err, dlerror, assign,
    THROW, ret; cbn.
  rewrite H; cbn. rewrite S; cbn. reflexivity.
Qed.

Lemma decompressor_initIDs_loaded :
  is_null (ld_open HADOOP_LZFSE_LIBRARY (Z.lor RTLD_LAZY RTLD_GLOBAL)) = false ->
  is_null (ld_sym (ld_open HADOOP_LZFSE_LIBRARY (Z.lor RTLD_LAZY RTLD_GLOBAL)) "lzfse_decode_buffer") = false ->
  decompressor_initIDs env clazz w =
  mkResult tt None
    (mkProcess
       (set_LzfseDecompressor_internalBufferSize
          (GetFieldID env clazz "internalBufferSize" "I")
          (set_LzfseDecompressor_decompressedBuffer
             (GetFieldID env clazz "decompressedBuffer" "Ljava/nio/Buffer;")
             (set_LzfseDecompressor_compressedBuffer
                (GetFieldID env clazz "compressedBuffer" "Ljava/nio/Buffer;")
                (set_dlsym_lzfse_decode_buffer
                   (ld_sym (ld_open HADOOP_LZFSE_LIBRARY (Z.lor RTLD_LAZY RTLD_GLOBAL)) "lzfse_decode_buffer") (globals w)))))
       None (heap w)
       ((trace w ++ [EvDlopen HADOOP_LZFSE_LIBRARY (Z.lor RTLD_LAZY RTLD_GLOBAL) (ld_open HADOOP_LZFSE_LIBRARY (Z.lor RTLD_LAZY RTLD_GLOBAL))]) ++
        [EvDlsym (ld_open HADOOP_LZFSE_LIBRARY (Z.lor RTLD_LAZY RTLD_GLOBAL)) "lzfse_decode_buffer" (ld_sym (ld_open HADOOP_LZFSE_LIBRARY (Z.lor RTLD_LAZY RTLD_GLOBAL)) "lzfse_decode_buffer")])).
Proof.
  intros H S.
  unfold Java_org_apache_hadoop_io_compress_lzfse_LzfseDecompressor_initIDs,
    LOAD_DYNAMIC_SYMBOL, bind, dlopen, dlsym, emit, set_dl_err, dlerror, assign,
    THROW, ret; cbn.
  rewrite H; cbn. rewrite S; cbn. reflexivity.
Qed.

End Init.

(** C3 (as amended).  Each class initialises on its own.  If opening the
    configured library fails, [initIDs] raises LibraryLoadError, whose text
    carries the diagnostic of the dynamic linker (cut to the 999 characters
    the message buffer holds).  If opening succeeds, the compressor's
    [initIDs] resolves [lzfse_encode_buffer] only and the decompressor's
    resolves [lzfse_decode_buffer] only; each raises SymbolResolutionError
    when its own symbol is missing and nothing otherwise. *)
Theorem initIDs_outcome {P : Platform}
    (env : JNIEnv) (clazz : jclass) (w : process) :
  thrown (compressor_initIDs env clazz w) =
    (if is_null (ld_open HADOOP_LZFSE_LIBRARY (Z.lor RTLD_LAZY RTLD_GLOBAL))
     then Some (LibraryLoadError (ld_diag HADOOP_LZFSE_LIBRARY))
     else if is_null (ld_sym (ld_open HADOOP_LZFSE_LIBRARY (Z.lor RTLD_LAZY RTLD_GLOBAL))
                        "lzfse_encode_buffer")
     then Some (SymbolResolutionError "lzfse_encode_buffer")
     else None) /\
  trace (final (compressor_initIDs env clazz w)) =
    trace w ++
    EvDlopen HADOOP_LZFSE_LIBRARY (Z.lor RTLD_LAZY RTLD_GLOBAL)
      (ld_open HADOOP_LZFSE_LIBRARY (Z.lor RTLD_LAZY RTLD_GLOBAL)) ::
    (if is_null (ld_open HADOOP_LZFSE_LIBRARY (Z.lor RTLD_LAZY RTLD_GLOBAL))
     then []
     else [EvDlsym (ld_open HADOOP_LZFSE_LIBRARY (Z.lor RTLD_LAZY RTLD_GLOBAL))
             "lzfse_encode_buffer"
             (ld_sym (ld_open HADOOP_LZFSE_LIBRARY (Z.lor RTLD_LAZY RTLD_GLOBAL))
                "lzfse_encode_buffer")]) /\
  thrown (decompressor_initIDs env clazz w) =
    (if is_null (ld_open HADOOP_LZFSE_LIBRARY (Z.lor RTLD_LAZY RTLD_GLOBAL))
     then Some (LibraryLoadError (ld_diag HADOOP_LZFSE_LIBRARY))
     else if is_null (ld_sym (ld_open HADOOP_LZFSE_LIBRARY (Z.lor RTLD_LAZY RTLD_GLOBAL))
                        "lzfse_decode_buffer")
     then Some (SymbolResolutionError "lzfse_decode_buffer")
     else None) /\
  trace (final (decompressor_initIDs env clazz w)) =
    trace w ++
    EvDlopen HADOOP_LZFSE_LIBRARY (Z.lor RTLD_LAZY RTLD_GLOBAL)
      (ld_open HADOOP_LZFSE_LIBRARY (Z.lor RTLD_LAZY RTLD_GLOBAL)) ::
    (if is_null (ld_open HADOOP_LZFSE_LIBRARY (Z.lor RTLD_LAZY RTLD_GLOBAL))
     then []
     else [EvDlsym (ld_open HADOOP_LZFSE_LIBRARY (Z.lor RTLD_LAZY RTLD_GLOBAL))
             "lzfse_decode_buffer"
             (ld_sym (ld_open HADOOP_LZFSE_LIBRARY (Z.lor RTLD_LAZY RTLD_GLOBAL))
                "lzfse_decode_buffer")]).
Proof.
  destruct (is_null (ld_open HADOOP_LZFSE_LIBRARY (Z.lor RTLD_LAZY RTLD_GLOBAL)))
    eqn:Open.
  - rewrite (compressor_initIDs_no_library env clazz w Open),
      (decompressor_initIDs_no_library env clazz w Open).
    repeat split.
  - repeat split.
    + destruct (is_null (ld_sym (ld_open HADOOP_LZFSE_LIBRARY (Z.lor RTLD_LAZY RTLD_GLOBAL)) "lzfse_encode_buffer")) eqn:Sym.
      * rewrite (compressor_initIDs_no_symbol env clazz w Open Sym). reflexivity.
      * rewrite (compressor_initIDs_loaded env clazz w Open Sym). reflexivity.
    + destruct (is_null (ld_sym (ld_open HADOOP_LZFSE_LIBRARY (Z.lor RTLD_LAZY RTLD_GLOBAL)) "lzfse_encode_buffer"))
        eqn:Sym.
      * rewrite (compressor_initIDs_no_symbol env clazz w Open Sym).
        cbn [final trace]. rewrite <- app_assoc. reflexivity.
      * rewrite (compressor_initIDs_loaded env clazz w Open Sym).
        cbn [final trace]. rewrite <- app_assoc. reflexivity.
    + destruct (is_null (ld_sym (ld_open HADOOP_LZFSE_LIBRARY (Z.lor RTLD_LAZY RTLD_GLOBAL)) "lzfse_decode_buffer")) eqn:Sym.
      * rewrite (decompressor_initIDs_no_symbol env clazz w Open Sym). reflexivity.
      * rewrite (decompressor_initIDs_loaded env clazz w Open Sym). reflexivity.
    + destruct (is_null (ld_sym (ld_open HADOOP_LZFSE_LIBRARY (Z.lor RTLD_LAZY RTLD_GLOBAL)) "lzfse_decode_buffer"))
        eqn:Sym.
      * rewrite (decompressor_initIDs_no_symbol env clazz w Open Sym).
        cbn [final trace]. rewrite <- app_assoc. reflexivity.
      * rewrite (decompressor_initIDs_loaded env clazz w Open Sym).
        cbn [final trace]. rewrite <- app_assoc. reflexivity.
Qed.

(** C3 as stated fails: the library opens and lacks [lzfse_decode_buffer],
    yet the compressor's [initIDs] raises nothing: it resolved one symbol,
    the encoder. *)
Lemma compressor_initIDs_ignores_missing_decoder :
  is_null (@ld_open Fixture.encoder_only "liblzfse.so" 257) = false /\
  is_null (@ld_sym Fixture.encoder_only (word.of_Z 32512) "lzfse_decode_buffer")
    = true /\
  thrown (@Java_org_apache_hadoop_io_compress_lzfse_LzfseCompressor_initIDs
            Fixture.encoder_only (Fixture.env 16) Fixture.clazz process_at_start)
    = None /\
  resolves (trace (final
    (@Java_org_apache_hadoop_io_compress_lzfse_LzfseCompressor_initIDs
       Fixture.encoder_only (Fixture.env 16) Fixture.clazz process_at_start)))
    = 1%nat.
Proof. vm_compute. repeat split. Qed.

(** C5 (as amended).  [getLibraryName] raises nothing and changes nothing.
    While the encoder is unresolved it returns the configured library name.
    Once the encoder is resolved it returns the file name [dladdr] reports
    for the encoder's address and, if [dladdr] fails, the configured library
    name again. *)
Theorem getLibraryName_result {P : Platform}
    (env : JNIEnv) (clazz : jclass) (w : process) :
  thrown (getLibraryName env clazz w) = None /\
  final (getLibraryName env clazz w) = w /\
  (dlsym_lzfse_encode_buffer (globals w) = NULL ->
   value (getLibraryName env clazz w) = HADOOP_LZFSE_LIBRARY) /\
  (dlsym_lzfse_encode_buffer (globals w) <> NULL ->
   value (getLibraryName env clazz w) =
   match ld_addr (dlsym_lzfse_encode_buffer (globals w)) with
   | Some dli_fname => dli_fname
   | None => HADOOP_LZFSE_LIBRARY
   end).
Proof.
  unfold Java_org_apache_hadoop_io_compress_lzfse_LzfseCompressor_getLibraryName,
    bind, load_statics, dladdr, ret, NewStringUTF; cbn.
  destruct (is_null (dlsym_lzfse_encode_buffer (globals w))) eqn:Null; cbn.
  - apply is_null_iff in Null. repeat split; intros; congruence.
  - assert (dlsym_lzfse_encode_buffer (globals w) <> NULL) as NotNull.
    { intros E. apply is_null_iff in E. congruence. }
    destruct (ld_addr (dlsym_lzfse_encode_buffer (globals w))); cbn;
      repeat split; intros; congruence.
Qed.

(** Before any load the name is the configured one; after a load on a
    platform whose [dladdr] knows the encoder it is the file on disk. *)
Lemma getLibraryName_result_witness :
  value (@Java_org_apache_hadoop_io_compress_lzfse_LzfseCompressor_getLibraryName
           Fixture.stored (Fixture.env 16) Fixture.clazz process_at_start)
    = "liblzfse.so" /\
  value (@Java_org_apache_hadoop_io_compress_lzfse_LzfseCompressor_getLibraryName
           Fixture.stored (Fixture.env 16) Fixture.clazz
           (Fixture.loaded Fixture.stored []))
    = "/usr/lib/liblzfse.so".
Proof.
  split.
  - apply (proj1 (proj2 (proj2 (@getLibraryName_result Fixture.stored
             (Fixture.env 16) Fixture.clazz process_at_start)))).
    vm_compute. reflexivity.
  - rewrite (proj2 (proj2 (proj2 (@getLibraryName_result Fixture.stored
               (Fixture.env 16) Fixture.clazz (Fixture.loaded Fixture.stored [])))));
      [vm_compute; reflexivity |].
    intros E. apply (f_equal word.unsigned) in E. vm_compute in E. discriminate.
Defined.

(** C5 as stated fails: the compressor loaded and its encoder is resolved,
    but [dladdr] does not know the address, and the name returned is the
    configured one, not a path on disk. *)
Lemma getLibraryName_falls_back_without_dladdr :
  thrown (@Java_org_apache_hadoop_io_compress_lzfse_LzfseCompressor_initIDs
            Fixture.no_dladdr (Fixture.env 16) Fixture.clazz process_at_start)
    = None /\
  is_null (dlsym_lzfse_encode_buffer (globals (Fixture.loaded Fixture.no_dladdr [])))
    = false /\
  @ld_addr Fixture.no_dladdr
    (dlsym_lzfse_encode_buffer (globals (Fixture.loaded Fixture.no_dladdr []))) = None /\
  value (@Java_org_apache_hadoop_io_compress_lzfse_LzfseCompressor_getLibraryName
           Fixture.no_dladdr (Fixture.env 16) Fixture.clazz
           (Fixture.loaded Fixture.no_dladdr []))
    = @HADOOP_LZFSE_LIBRARY Fixture.no_dladdr.
Proof. vm_compute. repeat split. Qed.

(** C7 (as amended).  [initIDs] has no guard: every call opens the library
    again and, when that succeeds, resolves its symbol again.  What a
    repeated call leaves behind is what the first call left: the same
    statics and the same outcome. *)
Theorem initIDs_repeats_its_steps {P : Platform}
    (env : JNIEnv) (clazz : jclass) (w : process) :
  (globals (final (compressor_initIDs env clazz
                     (final (compressor_initIDs env clazz w))))
     = globals (final (compressor_initIDs env clazz w)) /\
   thrown (compressor_initIDs env clazz (final (compressor_initIDs env clazz w)))
     = thrown (compressor_initIDs env clazz w) /\
   opens (trace (final (compressor_initIDs env clazz w))) = S (opens (trace w)) /\
   resolves (trace (final (compressor_initIDs env clazz w))) =
     ((if is_null (ld_open HADOOP_LZFSE_LIBRARY (Z.lor RTLD_LAZY RTLD_GLOBAL))
       then 0 else 1) + resolves (trace w))%nat) /\
  (globals (final (decompressor_initIDs env clazz
                     (final (decompressor_initIDs env clazz w))))
     = globals (final (decompressor_initIDs env clazz w)) /\
   thrown (decompressor_initIDs env clazz (final (decompressor_initIDs env clazz w)))
     = thrown (decompressor_initIDs env clazz w) /\
   opens (trace (final (decompressor_initIDs env clazz w))) = S (opens (trace w)) /\
   resolves (trace (final (decompressor_initIDs env clazz w))) =
     ((if is_null (ld_open HADOOP_LZFSE_LIBRARY (Z.lor RTLD_LAZY RTLD_GLOBAL))
       then 0 else 1) + resolves (trace w))%nat).
Proof.
  destruct (is_null (ld_open HADOOP_LZFSE_LIBRARY (Z.lor RTLD_LAZY RTLD_GLOBAL)))
    eqn:Open.
  - rewrite !(compressor_initIDs_no_library env clazz _ Open),
      !(decompressor_initIDs_no_library env clazz _ Open).
    cbn [final globals thrown trace].
    rewrite opens_app, resolves_app. cbn [opens resolves].
    repeat split; lia.
  - split.
    + destruct (is_null (ld_sym (ld_open HADOOP_LZFSE_LIBRARY (Z.lor RTLD_LAZY RTLD_GLOBAL)) "lzfse_encode_buffer"))
        eqn:Sym.
      * rewrite !(compressor_initIDs_no_symbol env clazz _ Open Sym).
        cbn [final globals thrown trace].
        rewrite !opens_app, !resolves_app. cbn [opens resolves].
        repeat split; lia.
      * rewrite !(compressor_initIDs_loaded env clazz _ Open Sym).
        cbn [final globals thrown trace].
        rewrite !opens_app, !resolves_app. cbn [opens resolves].
        repeat split; lia.
    + destruct (is_null (ld_sym (ld_open HADOOP_LZFSE_LIBRARY (Z.lor RTLD_LAZY RTLD_GLOBAL)) "lzfse_decode_buffer"))
        eqn:Sym.
      * rewrite !(decompressor_initIDs_no_symbol env clazz _ Open Sym).
        cbn [final globals thrown trace].
        rewrite !opens_app, !resolves_app. cbn [opens resolves].
        repeat split; lia.
      * rewrite !(decompressor_initIDs_loaded env clazz _ Open Sym).
        cbn [final globals thrown trace].
        rewrite !opens_app, !resolves_app. cbn [opens resolves].
        repeat split; lia.
Qed.

(** C7 as stated fails: after a first [initIDs] the encoder is resolved, and
    a second [initIDs] opens the library and resolves the symbol once more. *)
Lemma second_initIDs_opens_again :
  is_null (dlsym_lzfse_encode_buffer (globals (final
    (@Java_org_apache_hadoop_io_compress_lzfse_LzfseCompressor_initIDs
       Fixture.stored (Fixture.env 16) Fixture.clazz process_at_start)))) = false /\
  opens (trace (final
    (@Java_org_apache_hadoop_io_compress_lzfse_LzfseCompressor_initIDs
       Fixture.stored (Fixture.env 16) Fixture.clazz
       (final (@Java_org_apache_hadoop_io_compress_lzfse_LzfseCompressor_initIDs
                 Fixture.stored (Fixture.env 16) Fixture.clazz process_at_start)))))
    = 2%nat /\
  resolves (trace (final
    (@Java_org_apache_hadoop_io_compress_lzfse_LzfseCompressor_initIDs
       Fixture.stored (Fixture.env 16) Fixture.clazz
       (final (@Java_org_apache_hadoop_io_compress_lzfse_LzfseCompressor_initIDs
                 Fixture.stored (Fixture.env 16) Fixture.clazz process_at_start)))))
    = 2%nat.
Proof. vm_compute. repeat split. Qed.

(** ** Memory, and the fixture's codec *)

Lemma read_length (m : memory) (p : pointer) (n : nat) :
  List.length (read m p n) = n.
Proof. unfold read. rewrite List.length_map, List.length_seq. reflexivity. Qed.

Lemma read_write_same (m : memory) (p : pointer) (bs : list byte) :
  read (write m p bs) p (List.length bs) = bs.
Proof.
  apply List.nth_ext with (d := x00) (d' := x00).
  - apply read_length.
  - intros n Hn. rewrite read_length in Hn. unfold read.
    rewrite (List.nth_indep _ x00 (write m p bs (word.unsigned p + Z.of_nat 0)))
      by (rewrite List.length_map, List.length_seq; exact Hn).
    rewrite (List.map_nth (fun i => write m p bs (word.unsigned p + Z.of_nat i))).
    rewrite List.seq_nth by exact Hn. cbn [Nat.add]. unfold write.
    replace (word.unsigned p + Z.of_nat n - word.unsigned p) with (Z.of_nat n) by lia.
    destruct (Z.leb_spec 0 (Z.of_nat n)); [| lia].
    destruct (Z.ltb_spec (Z.of_nat n) (Z.of_nat (List.length bs))); [| lia].
    cbn [andb]. rewrite Nat2Z.id. reflexivity.
Qed.

Lemma stored_is_codec :
  codec Fixture.stored_encode Fixture.stored_decode Fixture.stored_payload.
Proof.
  split.
  - intros A _. discriminate.
  - intros m dst dst_size src src_size scratch A Nonempty Room out.
    subst out. unfold Fixture.stored_encode.
    pose proof (word.unsigned_range src_size) as S.
    pose proof (word.unsigned_range dst_size) as D.
    assert (List.length A = Z.to_nat (word.unsigned src_size)) as Len
      by apply read_length.
    assert (word.unsigned src_size <> 0) as N0.
    { intros E. apply Nonempty. apply List.length_zero_iff_nil.
      rewrite Len, E. reflexivity. }
    unfold Fixture.stored_payload in *. cbn [List.length] in *.
    destruct (Z.eqb_spec (word.unsigned src_size) 0); [contradiction |].
    destruct (Z.ltb_spec (word.unsigned dst_size) (word.unsigned src_size + 1));
      [lia |].
    cbn [orb fst snd]. split.
    + rewrite word.unsigned_of_Z_nowrap by lia. lia.
    + fold A. apply (read_write_same m dst (Fixture.marker :: A)).
  - intros m dst dst_size src src_size scratch A Payload Nonempty Room out.
    subst out. unfold Fixture.stored_decode. rewrite Payload.
    unfold Fixture.stored_payload.
    pose proof (word.unsigned_range dst_size) as D.
    replace (Byte.eqb Fixture.marker Fixture.marker) with true by reflexivity.
    destruct (Z.leb_spec (Z.of_nat (List.length A)) (word.unsigned dst_size));
      [| lia].
    cbn [andb fst snd]. split.
    + rewrite word.unsigned_of_Z_nowrap by lia. reflexivity.
    + apply read_write_same.
Qed.

Lemma loaded_stored_encoder (bytes : list byte) :
  @code_at Fixture.stored
    (dlsym_lzfse_encode_buffer (globals (Fixture.loaded Fixture.stored bytes)))
  = Fixture.stored_encode.
Proof. reflexivity. Qed.

Lemma loaded_stored_decoder (bytes : list byte) :
  @code_at Fixture.stored
    (dlsym_lzfse_decode_buffer (globals (Fixture.loaded Fixture.stored bytes)))
  = Fixture.stored_decode.
Proof. reflexivity. Qed.

(** ** Round trip *)

Lemma jint_of_length (n : nat) :
  Z.of_nat n < 2 ^ 31 ->
  word.signed (word.of_Z (Z.of_nat n) : jint) = Z.of_nat n.
Proof.
  intros H. rewrite word.signed_of_Z. apply word.swrap_inrange.
  change (2 ^ (32 - 1)) with (2 ^ 31). lia.
Qed.

Lemma size_t_of_nonnegative (x : jint) :
  0 <= word.signed x -> word.unsigned (size_t_of_jint x) = word.signed x.
Proof.
  intros H. rewrite unsigned_size_t_of_jint.
  destruct (Z.leb_spec 0 (word.signed x)); [reflexivity | lia].
Qed.

(** C8 (as amended).  Let the resolved foreign functions form a codec, let
    the non-empty [A] lie in the compressor's source buffer, let the declared
    capacities leave room for the payload of [A] and for [A], and let the
    decompressor find in its source buffer the bytes the compressor wrote.
    Then compressing [A] raises nothing and returns the payload's length,
    and decompressing that many bytes raises nothing, returns the length of
    [A] and leaves [A] in the decompressor's destination buffer. *)
Theorem round_trip_with_codec_and_room {P : Platform}
    (payload : list byte -> list byte)
    (env_c : JNIEnv) (this_c : jobject) (env_d : JNIEnv) (this_d : jobject)
    (A : list byte) (w w' : process) :
  codec (code_at (dlsym_lzfse_encode_buffer (globals w)))
        (code_at (dlsym_lzfse_decode_buffer (globals w))) payload ->
  A <> [] ->
  Z.of_nat (List.length A) < 2 ^ 31 ->
  read (heap w) (compress_src env_c this_c (globals w)) (List.length A) = A ->
  Z.of_nat (List.length (payload A))
    <= word.signed (compress_capacity env_c this_c (globals w)) ->
  Z.of_nat (List.length A)
    <= word.signed (decompress_capacity env_d this_d (globals w)) ->
  globals w' = globals w ->
  read (heap w') (decompress_src env_d this_d (globals w))
    (List.length (payload A)) =
  read (heap (final (compressBytesDirect env_c this_c
                       (word.of_Z (Z.of_nat (List.length A))) w)))
    (compress_dst env_c this_c (globals w)) (List.length (payload A)) ->
  thrown (compressBytesDirect env_c this_c
            (word.of_Z (Z.of_nat (List.length A))) w) = None /\
  word.signed (value (compressBytesDirect env_c this_c
                        (word.of_Z (Z.of_nat (List.length A))) w))
    = Z.of_nat (List.length (payload A)) /\
  thrown (decompressBytesDirect env_d this_d
            (value (compressBytesDirect env_c this_c
                      (word.of_Z (Z.of_nat (List.length A))) w)) w') = None /\
  word.signed (value (decompressBytesDirect env_d this_d
            (value (compressBytesDirect env_c this_c
                      (word.of_Z (Z.of_nat (List.length A))) w)) w'))
    = Z.of_nat (List.length A) /\
  read (heap (final (decompressBytesDirect env_d this_d
            (value (compressBytesDirect env_c this_c
                      (word.of_Z (Z.of_nat (List.length A))) w)) w')))
    (decompress_dst env_d this_d (globals w)) (List.length A) = A.
Proof.
  intros Codec Nonempty Short Source RoomC RoomD Statics Handover.
  destruct Codec as [PayloadNonempty Stores Restores].
  assert (0 < Z.of_nat (List.length A)) as PosA.
  { destruct A; [contradiction | cbn [List.length]; lia]. }
  assert (0 < Z.of_nat (List.length (payload A))) as PosP.
  { specialize (PayloadNonempty A Nonempty).
    destruct (payload A); [contradiction | cbn [List.length]; lia]. }
  pose proof (word.signed_range (compress_capacity env_c this_c (globals w))) as RC.
  pose proof (word.signed_range (decompress_capacity env_d this_d (globals w))) as RD.
  change (2 ^ (32 - 1)) with (2 ^ 31) in RC, RD.
  (* the compress call *)
  rewrite compressBytesDirect_bridged in *.
  set (size := (word.of_Z (Z.of_nat (List.length A)) : jint)) in *.
  assert (word.unsigned (size_t_of_jint size) = Z.of_nat (List.length A)) as SizeC.
  { rewrite size_t_of_nonnegative; unfold size; rewrite jint_of_length; lia. }
  pose proof (Stores (heap w) (compress_dst env_c this_c (globals w))
                (size_t_of_jint (compress_capacity env_c this_c (globals w)))
                (compress_src env_c this_c (globals w)) (size_t_of_jint size) NULL)
    as Enc.
  cbv zeta in Enc. rewrite SizeC, Nat2Z.id, Source in Enc.
  rewrite size_t_of_nonnegative in Enc by lia.
  destruct (Enc Nonempty RoomC) as [Count Written]. clear Enc.
  assert (foreign_returned w
            (final (bridged (dlsym_lzfse_encode_buffer (globals w))
                      (compress_dst env_c this_c (globals w))
                      (compress_capacity env_c this_c (globals w))
                      (compress_src env_c this_c (globals w)) size w))
            (fst (code_at (dlsym_lzfse_encode_buffer (globals w)) (heap w)
                    (compress_dst env_c this_c (globals w))
                    (size_t_of_jint (compress_capacity env_c this_c (globals w)))
                    (compress_src env_c this_c (globals w))
                    (size_t_of_jint size) NULL))) as RetC
    by (apply bridged_returned; reflexivity).
  destruct (bridged_verbatim _ _ _ _ _ _ _ RetC ltac:(lia)) as [QuietC ValueC].
  rewrite Count in ValueC.
  split; [exact QuietC |]. split; [exact ValueC |].
  (* the decompress call *)
  set (count := value (bridged (dlsym_lzfse_encode_buffer (globals w))
                         (compress_dst env_c this_c (globals w))
                         (compress_capacity env_c this_c (globals w))
                         (compress_src env_c this_c (globals w)) size w)) in *.
  rewrite decompressBytesDirect_bridged, Statics.
  assert (word.unsigned (size_t_of_jint count) = Z.of_nat (List.length (payload A)))
    as SizeD by (rewrite size_t_of_nonnegative; lia).
  pose proof (Restores (heap w') (decompress_dst env_d this_d (globals w))
                (size_t_of_jint (decompress_capacity env_d this_d (globals w)))
                (decompress_src env_d this_d (globals w)) (size_t_of_jint count)
                NULL A) as Dec.
  cbv zeta in Dec. rewrite SizeD, Nat2Z.id in Dec.
  rewrite size_t_of_nonnegative in Dec by lia.
  assert (read (heap w') (decompress_src env_d this_d (globals w))
            (List.length (payload A)) = payload A) as Input.
  { rewrite Handover. exact Written. }
  destruct (Dec Input Nonempty RoomD) as [CountD WrittenD]. clear Dec.
  assert (foreign_returned w'
            (final (bridged (dlsym_lzfse_decode_buffer (globals w))
                      (decompress_dst env_d this_d (globals w))
                      (decompress_capacity env_d this_d (globals w))
                      (decompress_src env_d this_d (globals w)) count w'))
            (fst (code_at (dlsym_lzfse_decode_buffer (globals w)) (heap w')
                    (decompress_dst env_d this_d (globals w))
                    (size_t_of_jint (decompress_capacity env_d this_d (globals w)))
                    (decompress_src env_d this_d (globals w))
                    (size_t_of_jint count) NULL))) as RetD
    by (apply bridged_returned; reflexivity).
  destruct (bridged_verbatim _ _ _ _ _ _ _ RetD ltac:(lia)) as [QuietD ValueD].
  rewrite CountD in ValueD.
  split; [exact QuietD |]. split; [exact ValueD |].
  exact WrittenD.
Qed.

(** Ten bytes go through the stored codec and come back. *)
Lemma round_trip_with_codec_and_room_witness :
  thrown (compress_on Fixture.stored 16 10 Fixture.ten_As) = None /\
  word.signed (value (compress_on Fixture.stored 16 10 Fixture.ten_As)) = 11 /\
  thrown (decompress_in Fixture.stored 16
            (value (compress_on Fixture.stored 16 10 Fixture.ten_As))
            (final (compress_on Fixture.stored 16 10 Fixture.ten_As))) = None /\
  word.signed (value (decompress_in Fixture.stored 16
            (value (compress_on Fixture.stored 16 10 Fixture.ten_As))
            (final (compress_on Fixture.stored 16 10 Fixture.ten_As)))) = 10 /\
  read (heap (final (decompress_in Fixture.stored 16
            (value (compress_on Fixture.stored 16 10 Fixture.ten_As))
            (final (compress_on Fixture.stored 16 10 Fixture.ten_As)))))
    (word.of_Z 262144) 10 = Fixture.ten_As.
Proof.
  assert (codec
            (@code_at Fixture.stored (dlsym_lzfse_encode_buffer
               (globals (Fixture.loaded Fixture.stored Fixture.ten_As))))
            (@code_at Fixture.stored (dlsym_lzfse_decode_buffer
               (globals (Fixture.loaded Fixture.stored Fixture.ten_As))))
            Fixture.stored_payload) as Codec.
  { rewrite loaded_stored_encoder, loaded_stored_decoder. exact stored_is_codec. }
  pose proof (@round_trip_with_codec_and_room Fixture.stored Fixture.stored_payload
                (Fixture.env 16) Fixture.compressor
                (Fixture.env 16) Fixture.decompressor
                Fixture.ten_As
                (Fixture.loaded Fixture.stored Fixture.ten_As)
                (final (compress_on Fixture.stored 16 10 Fixture.ten_As))
                Codec
                ltac:(discriminate)
                ltac:(vm_compute; reflexivity)
                ltac:(vm_compute; reflexivity)
                ltac:(vm_compute; discriminate)
                ltac:(vm_compute; discriminate)
                ltac:(vm_compute; reflexivity)
                ltac:(vm_compute; reflexivity)) as RoundTrip.
  vm_compute in RoundTrip. vm_compute. exact RoundTrip.
Defined.

(** C8 as stated fails: the stored codec is a codec, but with room for four
    bytes only the ten bytes are not compressed (CodecFailure, count 0), and
    decompressing the zero bytes that came out does not give them back. *)
Lemma round_trip_fails_without_room :
  codec Fixture.stored_encode Fixture.stored_decode Fixture.stored_payload /\
  thrown (compress_on Fixture.stored 4 10 Fixture.ten_As)
    = Some (CodecFailure "lzfse_encode_buffer failed") /\
  word.signed (value (compress_on Fixture.stored 4 10 Fixture.ten_As)) = 0 /\
  word.signed (value (decompress_in Fixture.stored 16
            (value (compress_on Fixture.stored 4 10 Fixture.ten_As))
            (final (compress_on Fixture.stored 4 10 Fixture.ten_As)))) = 0 /\
  read (heap (final (decompress_in Fixture.stored 16
            (value (compress_on Fixture.stored 4 10 Fixture.ten_As))
            (final (compress_on Fixture.stored 4 10 Fixture.ten_As)))))
    (word.of_Z 262144) 10 <> Fixture.ten_As.
Proof.
  split; [exact stored_is_codec |].
  vm_compute. repeat split. discriminate.
Qed.

(** * Further properties of the bridge *)

(** ** Calls *)

(** A call that raises returns 0: [THROW] does not leave the function, which
    goes on to [return encoded], and [encoded] is 0 whenever it raised. *)
Theorem failed_call_returns_zero {P : Platform}
    (env : JNIEnv) (thisj : jobject) (size : jint) (w : process) (e : throwable) :
  (thrown (compressBytesDirect env thisj size w) = Some e ->
   value (compressBytesDirect env thisj size w) = word.of_Z 0) /\
  (thrown (decompressBytesDirect env thisj size w) = Some e ->
   value (decompressBytesDirect env thisj size w) = word.of_Z 0).
Proof.
  rewrite compressBytesDirect_bridged, decompressBytesDirect_bridged.
  split; unfold bridged; cbn [thrown value]; intros T;
    match type of T with
    | (if jsize_is_zero ?x && _ then _ else _) = _ =>
        destruct (jsize_is_zero x) eqn:Zero; cbn [andb] in T;
        [apply jsize_is_zero_iff; exact Zero | discriminate]
    end.
Qed.

(** A returned value whose low 32 bits have the top bit set comes back as a
    negative count, and nothing is raised. *)
Theorem high_bit_return_is_a_negative_success {P : Platform}
    (env : JNIEnv) (thisj : jobject) (size : jint) (w : process)
    (returned : size_t) :
  2 ^ 31 <= word.unsigned returned mod 2 ^ 32 ->
  (foreign_returned w (final (compressBytesDirect env thisj size w)) returned ->
   thrown (compressBytesDirect env thisj size w) = None /\
   word.signed (value (compressBytesDirect env thisj size w))
     = word.unsigned returned mod 2 ^ 32 - 2 ^ 32) /\
  (foreign_returned w (final (decompressBytesDirect env thisj size w)) returned ->
   thrown (decompressBytesDirect env thisj size w) = None /\
   word.signed (value (decompressBytesDirect env thisj size w))
     = word.unsigned returned mod 2 ^ 32 - 2 ^ 32).
Proof.
  intros High.
  assert (word.signed (jsize_of_size_t returned)
          = word.unsigned returned mod 2 ^ 32 - 2 ^ 32) as Value.
  { unfold jsize_of_size_t. rewrite word.signed_of_Z. unfold word.swrap.
    change (2 ^ (32 - 1)) with 2147483648. change (2 ^ 32) with 4294967296 in *.
    change (2 ^ 31) with 2147483648 in High.
    pose proof (Z.mod_pos_bound (word.unsigned returned) 4294967296 ltac:(lia)).
    rewrite (Z.div_mod (word.unsigned returned) 4294967296) at 1 by lia.
    replace (4294967296 * (word.unsigned returned / 4294967296)
             + word.unsigned returned mod 4294967296 + 2147483648)
      with (word.unsigned returned mod 4294967296 - 2147483648
            + (word.unsigned returned / 4294967296 + 1) * 4294967296) by lia.
    rewrite Z.mod_add by lia. rewrite Z.mod_small by lia. lia. }
  rewrite compressBytesDirect_bridged, decompressBytesDirect_bridged.
  split; intros R; apply bridged_returned in R; rewrite bridged_thrown, bridged_value;
    rewrite <- R;
    (split; [| exact Value]);
    destruct (Z.eqb_spec (word.unsigned returned mod 2 ^ 32) 0);
    [lia | reflexivity | lia | reflexivity].
Qed.

Lemma high_bit_return_is_a_negative_success_witness :
  2 ^ 31 <= word.unsigned (word.of_Z 4294967295 : size_t) mod 2 ^ 32 /\
  thrown (compress_on (Fixture.reporting 4294967295) 16 1 []) = None /\
  word.signed (value (compress_on (Fixture.reporting 4294967295) 16 1 [])) = -1.
Proof.
  split; [vm_compute; discriminate |].
  pose proof (proj1 (@high_bit_return_is_a_negative_success
                       (Fixture.reporting 4294967295)
                       (Fixture.env 16) Fixture.compressor (word.of_Z 1)
                       (Fixture.loaded (Fixture.reporting 4294967295) [])
                       (word.of_Z 4294967295)
                       ltac:(vm_compute; discriminate))) as H.
  assert (foreign_returned (Fixture.loaded (Fixture.reporting 4294967295) [])
            (final (compress_on (Fixture.reporting 4294967295) 16 1 []))
            (word.of_Z 4294967295)) as R.
  { unfold compress_on. rewrite compressBytesDirect_bridged.
    apply bridged_returned. vm_compute. reflexivity. }
  specialize (H R). vm_compute in H. vm_compute. exact H.
Defined.

(** A call never opens the library nor resolves a symbol, and it leaves the
    pending [dlerror] diagnostic alone: the only trace it leaves is its one
    foreign call. *)
Theorem calls_never_load {P : Platform}
    (env : JNIEnv) (thisj : jobject) (size : jint) (w : process) :
  (opens (trace (final (compressBytesDirect env thisj size w))) = opens (trace w) /\
   resolves (trace (final (compressBytesDirect env thisj size w)))
     = resolves (trace w) /\
   dl_err (final (compressBytesDirect env thisj size w)) = dl_err w) /\
  (opens (trace (final (decompressBytesDirect env thisj size w))) = opens (trace w) /\
   resolves (trace (final (decompressBytesDirect env thisj size w)))
     = resolves (trace w) /\
   dl_err (final (decompressBytesDirect env thisj size w)) = dl_err w).
Proof.
  rewrite compressBytesDirect_bridged, decompressBytesDirect_bridged.
  rewrite !bridged_trace, !opens_app, !resolves_app. cbn [opens resolves].
  repeat split; lia.
Qed.

(** ** Initialisation *)

(** When the library cannot be opened, [initIDs] changes no static and
    does not try to resolve a symbol. *)
Theorem initIDs_without_library_changes_no_static {P : Platform}
    (env : JNIEnv) (clazz : jclass) (w : process) :
  is_null (ld_open HADOOP_LZFSE_LIBRARY (Z.lor RTLD_LAZY RTLD_GLOBAL)) = true ->
  (globals (final (compressor_initIDs env clazz w)) = globals w /\
   resolves (trace (final (compressor_initIDs env clazz w))) = resolves (trace w)) /\
  (globals (final (decompressor_initIDs env clazz w)) = globals w /\
   resolves (trace (final (decompressor_initIDs env clazz w))) = resolves (trace w)).
Proof.
  intros Open.
  rewrite (compressor_initIDs_no_library env clazz w Open),
    (decompressor_initIDs_no_library env clazz w Open).
  cbn [final globals trace]. rewrite resolves_app. cbn [resolves].
  repeat split; lia.
Qed.

Lemma initIDs_without_library_changes_no_static_witness :
  is_null (@ld_open Fixture.no_library (@HADOOP_LZFSE_LIBRARY Fixture.no_library)
             (Z.lor (@RTLD_LAZY Fixture.no_library) (@RTLD_GLOBAL Fixture.no_library)))
    = true /\
  globals (final (@Java_org_apache_hadoop_io_compress_lzfse_LzfseCompressor_initIDs
                    Fixture.no_library (Fixture.env 16) Fixture.clazz process_at_start))
    = statics_at_start.
Proof.
  split; [vm_compute; reflexivity |].
  apply (proj1 (proj1 (@initIDs_without_library_changes_no_static Fixture.no_library
                         (Fixture.env 16) Fixture.clazz process_at_start
                         ltac:(vm_compute; reflexivity)))).
Defined.

(** The two classes initialise independently: the compressor's [initIDs]
    leaves the four statics of the decompressor as they were and the
    decompressor's leaves those of the compressor, so that the order in
    which the two classes are initialised makes no difference to the
    statics. *)
Theorem initIDs_of_the_two_classes_are_independent {P : Platform}
    (env : JNIEnv) (clazz : jclass) (w : process) :
  (dlsym_lzfse_decode_buffer (globals (final (compressor_initIDs env clazz w)))
     = dlsym_lzfse_decode_buffer (globals w) /\
   LzfseDecompressor_compressedBuffer (globals (final (compressor_initIDs env clazz w)))
     = LzfseDecompressor_compressedBuffer (globals w) /\
   LzfseDecompressor_decompressedBuffer (globals (final (compressor_initIDs env clazz w)))
     = LzfseDecompressor_decompressedBuffer (globals w) /\
   LzfseDecompressor_internalBufferSize (globals (final (compressor_initIDs env clazz w)))
     = LzfseDecompressor_internalBufferSize (globals w)) /\
  (dlsym_lzfse_encode_buffer (globals (final (decompressor_initIDs env clazz w)))
     = dlsym_lzfse_encode_buffer (globals w) /\
   LzfseCompressor_uncompressedBuffer (globals (final (decompressor_initIDs env clazz w)))
     = LzfseCompressor_uncompressedBuffer (globals w) /\
   LzfseCompressor_compressedBuffer (globals (final (decompressor_initIDs env clazz w)))
     = LzfseCompressor_compressedBuffer (globals w) /\
   LzfseCompressor_internalBufferSize (globals (final (decompressor_initIDs env clazz w)))
     = LzfseCompressor_internalBufferSize (globals w)) /\
  globals (final (decompressor_initIDs env clazz
                    (final (compressor_initIDs env clazz w))))
  = globals (final (compressor_initIDs env clazz
                      (final (decompressor_initIDs env clazz w)))).
Proof.
  destruct (is_null (ld_open HADOOP_LZFSE_LIBRARY (Z.lor RTLD_LAZY RTLD_GLOBAL)))
    eqn:Open.
  - rewrite !(compressor_initIDs_no_library env clazz _ Open),
      !(decompressor_initIDs_no_library env clazz _ Open).
    repeat split.
  - destruct (is_null (ld_sym (ld_open HADOOP_LZFSE_LIBRARY (Z.lor RTLD_LAZY RTLD_GLOBAL))
                         "lzfse_encode_buffer")) eqn:Enc;
      destruct (is_null (ld_sym (ld_open HADOOP_LZFSE_LIBRARY (Z.lor RTLD_LAZY RTLD_GLOBAL))
                           "lzfse_decode_buffer")) eqn:Dec.
    + rewrite !(compressor_initIDs_no_symbol env clazz _ Open Enc),
        !(decompressor_initIDs_no_symbol env clazz _ Open Dec).
      repeat split.
    + rewrite !(compressor_initIDs_no_symbol env clazz _ Open Enc),
        !(decompressor_initIDs_loaded env clazz _ Open Dec).
      repeat split.
    + rewrite !(compressor_initIDs_loaded env clazz _ Open Enc),
        !(decompressor_initIDs_no_symbol env clazz _ Open Dec).
      repeat split.
    + rewrite !(compressor_initIDs_loaded env clazz _ Open Enc),
        !(decompressor_initIDs_loaded env clazz _ Open Dec).
      repeat split.
Qed.

(** After a compressor [initIDs] that raised nothing, a compress call goes
    to the address resolved for [lzfse_encode_buffer], reads from the buffer
    in the field [uncompressedBuffer], writes to the buffer in the field
    [compressedBuffer] and declares the capacity in the field
    [internalBufferSize]. *)
Theorem compress_after_initIDs {P : Platform}
    (env : JNIEnv) (clazz : jclass) (thisj : jobject) (size : jint) (w : process) :
  thrown (compressor_initIDs env clazz w) = None ->
  is_null (ld_sym (ld_open HADOOP_LZFSE_LIBRARY (Z.lor RTLD_LAZY RTLD_GLOBAL))
             "lzfse_encode_buffer") = false /\
  exists returned,
    trace (final (compressBytesDirect env thisj size
                    (final (compressor_initIDs env clazz w)))) =
    trace (final (compressor_initIDs env clazz w)) ++
    [EvCall
       (ld_sym (ld_open HADOOP_LZFSE_LIBRARY (Z.lor RTLD_LAZY RTLD_GLOBAL))
          "lzfse_encode_buffer")
       (GetDirectBufferAddress env
          (GetObjectField env thisj
             (GetFieldID env clazz "compressedBuffer" "Ljava/nio/Buffer;")))
       (size_t_of_jint
          (GetIntField env thisj (GetFieldID env clazz "internalBufferSize" "I")))
       (GetDirectBufferAddress env
          (GetObjectField env thisj
             (GetFieldID env clazz "uncompressedBuffer" "Ljava/nio/Buffer;")))
       (size_t_of_jint size) NULL returned].
Proof.
  intros Quiet.
  destruct (is_null (ld_open HADOOP_LZFSE_LIBRARY (Z.lor RTLD_LAZY RTLD_GLOBAL)))
    eqn:Open.
  { rewrite (compressor_initIDs_no_library env clazz w Open) in Quiet.
    discriminate. }
  destruct (is_null (ld_sym (ld_open HADOOP_LZFSE_LIBRARY (Z.lor RTLD_LAZY RTLD_GLOBAL))
                       "lzfse_encode_buffer")) eqn:Sym.
  { rewrite (compressor_initIDs_no_symbol env clazz w Open Sym) in Quiet.
    discriminate. }
  split; [reflexivity |].
  rewrite compressBytesDirect_bridged, bridged_trace.
  rewrite (compressor_initIDs_loaded env clazz w Open Sym).
  eexists. reflexivity.
Qed.

Lemma compress_after_initIDs_witness :
  thrown (@Java_org_apache_hadoop_io_compress_lzfse_LzfseCompressor_initIDs
            Fixture.stored (Fixture.env 16) Fixture.clazz process_at_start) = None /\
  is_null (@ld_sym Fixture.stored
             (@ld_open Fixture.stored (@HADOOP_LZFSE_LIBRARY Fixture.stored)
                (Z.lor (@RTLD_LAZY Fixture.stored) (@RTLD_GLOBAL Fixture.stored)))
             "lzfse_encode_buffer") = false.
Proof.
  split; [vm_compute; reflexivity |].
  apply (proj1 (@compress_after_initIDs Fixture.stored (Fixture.env 16)
                  Fixture.clazz Fixture.compressor (word.of_Z 10) process_at_start
                  ltac:(vm_compute; reflexivity))).
Defined.

(** After a decompressor [initIDs] that raised nothing, a decompress call
    goes to the address resolved for [lzfse_decode_buffer], reads from the
    buffer in the field [compressedBuffer], writes to the buffer in the
    field [decompressedBuffer] and declares the capacity in the field
    [internalBufferSize]. *)
Theorem decompress_after_initIDs {P : Platform}
    (env : JNIEnv) (clazz : jclass) (thisj : jobject) (size : jint) (w : process) :
  thrown (decompressor_initIDs env clazz w) = None ->
  is_null (ld_sym (ld_open HADOOP_LZFSE_LIBRARY (Z.lor RTLD_LAZY RTLD_GLOBAL))
             "lzfse_decode_buffer") = false /\
  exists returned,
    trace (final (decompressBytesDirect env thisj size
                    (final (decompressor_initIDs env clazz w)))) =
    trace (final (decompressor_initIDs env clazz w)) ++
    [EvCall
       (ld_sym (ld_open HADOOP_LZFSE_LIBRARY (Z.lor RTLD_LAZY RTLD_GLOBAL))
          "lzfse_decode_buffer")
       (GetDirectBufferAddress env
          (GetObjectField env thisj
             (GetFieldID env clazz "decompressedBuffer" "Ljava/nio/Buffer;")))
       (size_t_of_jint
          (GetIntField env thisj (GetFieldID env clazz "internalBufferSize" "I")))
       (GetDirectBufferAddress env
          (GetObjectField env thisj
             (GetFieldID env clazz "compressedBuffer" "Ljava/nio/Buffer;")))
       (size_t_of_jint size) NULL returned].
Proof.
  intros Quiet.
  destruct (is_null (ld_open HADOOP_LZFSE_LIBRARY (Z.lor RTLD_LAZY RTLD_GLOBAL)))
    eqn:Open.
  { rewrite (decompressor_initIDs_no_library env clazz w Open) in Quiet.
    discriminate. }
  destruct (is_null (ld_sym (ld_open HADOOP_LZFSE_LIBRARY (Z.lor RTLD_LAZY RTLD_GLOBAL))
                       "lzfse_decode_buffer")) eqn:Sym.
  { rewrite (decompressor_initIDs_no_symbol env clazz w Open Sym) in Quiet.
    discriminate. }
  split; [reflexivity |].
  rewrite decompressBytesDirect_bridged, bridged_trace.
  rewrite (decompressor_initIDs_loaded env clazz w Open Sym).
  eexists. reflexivity.
Qed.

Lemma decompress_after_initIDs_witness :
  thrown (@Java_org_apache_hadoop_io_compress_lzfse_LzfseDecompressor_initIDs
            Fixture.stored (Fixture.env 16) Fixture.clazz process_at_start) = None /\
  is_null (@ld_sym Fixture.stored
             (@ld_open Fixture.stored (@HADOOP_LZFSE_LIBRARY Fixture.stored)
                (Z.lor (@RTLD_LAZY Fixture.stored) (@RTLD_GLOBAL Fixture.stored)))
             "lzfse_decode_buffer") = false.
Proof.
  split; [vm_compute; reflexivity |].
  apply (proj1 (@decompress_after_initIDs Fixture.stored (Fixture.env 16)
                  Fixture.clazz Fixture.decompressor (word.of_Z 10) process_at_start
                  ltac:(vm_compute; reflexivity))).
Defined.

(** ** The message of a failed load *)

Lemma substring_from_start_length (n : nat) (s : string) :
  (String.length (String.substring 0 n s) <= n)%nat.
Proof.
  revert s. induction n as [| n IH]; intros s.
  - destruct s; cbn; lia.
  - destruct s as [| c s]; cbn; [lia |]. specialize (IH s). lia.
Qed.

Lemma substring_from_start_all (n : nat) (s : string) :
  (String.length s <= n)%nat -> String.substring 0 n s = s.
Proof.
  revert s. induction n as [| n IH]; intros s Len.
  - destruct s; [reflexivity | cbn in Len; lia].
  - destruct s as [| c s]; [reflexivity |].
    cbn in Len. cbn. rewrite IH by lia. reflexivity.
Qed.

(** When the library cannot be opened, [initIDs] raises an
    [UnsatisfiedLinkError] whose text never exceeds the 999 characters the
    message buffer holds; a text that fits is "Cannot load <library>
    (<diagnostic>)!" in full. *)
Theorem load_error_message_fits_the_buffer {P : Platform}
    (env : JNIEnv) (clazz : jclass) (w : process) :
  is_null (ld_open HADOOP_LZFSE_LIBRARY (Z.lor RTLD_LAZY RTLD_GLOBAL)) = true ->
  exists e,
    thrown (compressor_initIDs env clazz w) = Some e /\
    thrown (decompressor_initIDs env clazz w) = Some e /\
    exception_name e = "java/lang/UnsatisfiedLinkError" /\
    (String.length (message e) <= 999)%nat /\
    ((String.length
        (String.append (String.append "Cannot load " HADOOP_LZFSE_LIBRARY)
           (String.append " ("
              (String.append (ld_diag HADOOP_LZFSE_LIBRARY) ")!"))) <= 999)%nat ->
     message e =
       String.append (String.append "Cannot load " HADOOP_LZFSE_LIBRARY)
         (String.append " (" (String.append (ld_diag HADOOP_LZFSE_LIBRARY) ")!"))).
Proof.
  intros Open.
  rewrite (compressor_initIDs_no_library env clazz w Open),
    (decompressor_initIDs_no_library env clazz w Open).
  eexists. split; [reflexivity |]. split; [reflexivity |].
  split; [reflexivity |].
  unfold LibraryLoadError, snprintf; cbn [message Nat.sub].
  split.
  - apply substring_from_start_length.
  - apply substring_from_start_all.
Qed.

Lemma load_error_message_fits_the_buffer_witness :
  exists e,
    thrown (@Java_org_apache_hadoop_io_compress_lzfse_LzfseCompressor_initIDs
              Fixture.no_library (Fixture.env 16) Fixture.clazz process_at_start)
      = Some e /\
    (String.length (message e) <= 999)%nat.
Proof.
  destruct (@load_error_message_fits_the_buffer Fixture.no_library
              (Fixture.env 16) Fixture.clazz process_at_start
              ltac:(vm_compute; reflexivity))
    as (e & Thrown & _ & _ & Fits & _).
  exists e. split; assumption.
Defined.

(** ** The library name after a failed load *)

Lemma getLibraryName_unresolved {P : Platform}
    (env : JNIEnv) (clazz : jclass) (w : process) :
  is_null (dlsym_lzfse_encode_buffer (globals w)) = true ->
  getLibraryName env clazz w = mkResult HADOOP_LZFSE_LIBRARY None w.
Proof.
  intros Null.
  unfold Java_org_apache_hadoop_io_compress_lzfse_LzfseCompressor_getLibraryName,
    bind, load_statics, dladdr, ret, NewStringUTF; cbn.
  rewrite Null. reflexivity.
Qed.

(** If the compressor's [initIDs] raises in a process whose encoder was
    never resolved, [getLibraryName] keeps answering the configured name. *)
Theorem getLibraryName_after_failed_initIDs {P : Platform}
    (env : JNIEnv) (clazz : jclass) (w : process) (e : throwable) :
  dlsym_lzfse_encode_buffer (globals w) = NULL ->
  thrown (compressor_initIDs env clazz w) = Some e ->
  value (getLibraryName env clazz (final (compressor_initIDs env clazz w)))
    = HADOOP_LZFSE_LIBRARY /\
  thrown (getLibraryName env clazz (final (compressor_initIDs env clazz w))) = None.
Proof.
  intros Unresolved Raised.
  assert (is_null (dlsym_lzfse_encode_buffer
                     (globals (final (compressor_initIDs env clazz w)))) = true)
    as StillNull.
  { destruct (is_null (ld_open HADOOP_LZFSE_LIBRARY (Z.lor RTLD_LAZY RTLD_GLOBAL)))
      eqn:Open.
    - rewrite (compressor_initIDs_no_library env clazz w Open).
      cbn [final globals]. apply is_null_iff. exact Unresolved.
    - destruct (is_null (ld_sym (ld_open HADOOP_LZFSE_LIBRARY
                                   (Z.lor RTLD_LAZY RTLD_GLOBAL))
                           "lzfse_encode_buffer")) eqn:Sym.
      + rewrite (compressor_initIDs_no_symbol env clazz w Open Sym).
        cbn [final globals set_dlsym_lzfse_encode_buffer dlsym_lzfse_encode_buffer].
        exact Sym.
      + rewrite (compressor_initIDs_loaded env clazz w Open Sym) in Raised.
        discriminate. }
  rewrite (getLibraryName_unresolved env clazz _ StillNull).
  split; reflexivity.
Qed.

Lemma getLibraryName_after_failed_initIDs_witness :
  value (@Java_org_apache_hadoop_io_compress_lzfse_LzfseCompressor_getLibraryName
           Fixture.decoder_only (Fixture.env 16) Fixture.clazz
           (final (@Java_org_apache_hadoop_io_compress_lzfse_LzfseCompressor_initIDs
                     Fixture.decoder_only (Fixture.env 16) Fixture.clazz
                     process_at_start)))
  = "liblzfse.so".
Proof.
  apply (proj1 (@getLibraryName_after_failed_initIDs Fixture.decoder_only
                  (Fixture.env 16) Fixture.clazz process_at_start
                  (mkThrowable "java/lang/UnsatisfiedLinkError" "lzfse_encode_buffer")
                  ltac:(vm_compute; reflexivity)
                  ltac:(vm_compute; reflexivity))).
Defined.
